(** * going-dutch-backend: the receipt processor and its business-logic validator

    A shallow embedding of [ReceiptProcessor] (services/receiptProcessor) and
    of the schemas of [types/receipt.ts], with the properties the
    specification states about them.

    - JavaScript strings are sequences of UTF-16 code units, so that
      [length] is the [.length] property the validator reads.
    - JavaScript numbers are IEEE 754 binary64 values ([spec_float] with
      precision 53 and maximal exponent 1024), with the rounding of every
      [+], [-] and [*], signed zeros, infinities and NaN.
    - [console] output and exceptions are the two effects of the code; they
      are threaded through a small monad in which the console survives a
      [throw].

    The development also covers the earlier version of the processor, the
    upload middleware and the route of [app.ts], and the loading of the
    configuration ([config.ts] and its earlier version).  The hosted model,
    the JSON extraction of the parser, sharp, multer and [Number] are
    parameters. *)

From Stdlib Require Import ZArith NArith Bool String Ascii Floats Lia List.
Import ListNotations.

Set Warnings "-inexact-float".

Local Open Scope list_scope.
Local Open Scope nat_scope.

(* ===================================================================== *)
(** * JavaScript values *)
(* ===================================================================== *)

Module Js.

(** ** Strings *)

Definition jsstring := list N.

(** A literal of the source, all of whose characters are ASCII. *)
Definition lit (s : string) : jsstring :=
  map N_of_ascii (list_ascii_of_string s).

(** [ToBoolean] of a string: the empty string alone is falsy. *)
Definition truthy (s : jsstring) : bool :=
  match s with
  | [] => false
  | _ :: _ => true
  end.

(** [ToBoolean] of an optional string property: [undefined] is falsy. *)
Definition truthy_opt (o : option jsstring) : bool :=
  match o with
  | None => false
  | Some s => truthy s
  end.

(** ECMAScript WhiteSpace and LineTerminator code points, the ones
    [String.prototype.trim] removes.  All of them are in the basic plane,
    so the test is on single code units. *)
Definition is_white_space (c : N) : bool :=
  ((9 <=? c) && (c <=? 13) || (c =? 32) || (c =? 160) || (c =? 5760)
   || (8192 <=? c) && (c <=? 8202) || (c =? 8232) || (c =? 8233)
   || (c =? 8239) || (c =? 8287) || (c =? 12288) || (c =? 65279))%N.

Fixpoint trim_start (s : jsstring) : jsstring :=
  match s with
  | [] => []
  | c :: s' => if is_white_space c then trim_start s' else s
  end.

Definition trim (s : jsstring) : jsstring :=
  rev (trim_start (rev (trim_start s))).

Fixpoint starts_with (p s : jsstring) : bool :=
  match p, s with
  | [], _ => true
  | _ :: _, [] => false
  | a :: p', b :: s' => (a =? b)%N && starts_with p' s'
  end.

(** [s.includes(p)] *)
Fixpoint includes (s p : jsstring) : bool :=
  starts_with p s
  || match s with
     | [] => false
     | _ :: s' => includes s' p
     end.

(** ** Numbers *)

Definition number := spec_float.

(** A number literal of the source: the binary64 value nearest to it. *)
Definition num (f : float) : number := Prim2SF f.

Definition add : number -> number -> number := SFadd prec emax.
Definition sub : number -> number -> number := SFsub prec emax.
Definition mul : number -> number -> number := SFmul prec emax.
Definition abs : number -> number := SFabs.
Definition lt : number -> number -> bool := SFltb.
Definition le : number -> number -> bool := SFleb.
Definition gt (a b : number) : bool := SFltb b a.
Definition ge (a b : number) : bool := SFleb b a.

Definition isNaN (x : number) : bool :=
  match x with
  | S754_nan => true
  | _ => false
  end.

(** [a || []] on an optional array: an array, even empty, is truthy. *)
Definition or_empty {A : Type} (o : option (list A)) : list A :=
  match o with
  | Some l => l
  | None => []
  end.

End Js.

Declare Scope js_scope.
Delimit Scope js_scope with js.
Infix "+" := Js.add : js_scope.
Infix "-" := Js.sub : js_scope.
Infix "*" := Js.mul : js_scope.
Infix "<" := Js.lt : js_scope.
Infix "<=" := Js.le : js_scope.
Infix ">" := Js.gt : js_scope.
Infix ">=" := Js.ge : js_scope.

Import Js.

(* ===================================================================== *)
(** * The data model of types/receipt.ts *)
(* ===================================================================== *)

Module ReceiptItem.
Record t : Type := Build
  { name : jsstring;
    quantity : number;
    price : number }.
End ReceiptItem.

Module AdditionalCost.
Record t : Type := Build
  { name : jsstring;
    amount : number;
    additionalCost : bool }.
End AdditionalCost.

Module ReceiptAnalysisResult.
Record t : Type := Build
  { items : list ReceiptItem.t;
    additionalCosts : option (list AdditionalCost.t);
    totalPrice : number;
    currency : jsstring;
    currencySymbol : option jsstring;
    errorText : option jsstring }.
End ReceiptAnalysisResult.

Import ReceiptAnalysisResult.

(** ** The zod schemas

    [z.string().min(n)], [z.number()] (which refuses NaN),
    [.positive()] and [.nonnegative()], then the three object schemas.
    The value checked already has the shape of the object: what is modelled
    is the refinement each field must pass. *)

Module Zod.

Definition string_min (n : nat) (s : jsstring) : bool := n <=? length s.

Definition number (x : Js.number) : bool := negb (isNaN x).

(** zod refuses [x <= 0]. *)
Definition positive (x : Js.number) : bool := negb (x <= num 0)%js.

(** zod refuses [x < 0]. *)
Definition nonnegative (x : Js.number) : bool := negb (x < num 0)%js.

Definition optional {A : Type} (check : A -> bool) (o : option A) : bool :=
  match o with
  | None => true
  | Some a => check a
  end.

Definition array {A : Type} (check : A -> bool) (l : list A) : bool :=
  forallb check l.

End Zod.

Definition ReceiptItemSchema (i : ReceiptItem.t) : bool :=
  Zod.string_min 1 (ReceiptItem.name i)
  && (Zod.number (ReceiptItem.quantity i) && Zod.positive (ReceiptItem.quantity i))
  && (Zod.number (ReceiptItem.price i) && Zod.nonnegative (ReceiptItem.price i)).

Definition AdditionalCostSchema (c : AdditionalCost.t) : bool :=
  Zod.string_min 1 (AdditionalCost.name c)
  && (Zod.number (AdditionalCost.amount c)
      && Zod.nonnegative (AdditionalCost.amount c)).

Definition ReceiptAnalysisResultSchema (r : ReceiptAnalysisResult.t) : bool :=
  Zod.array ReceiptItemSchema (items r)
  && Zod.optional (Zod.array AdditionalCostSchema) (additionalCosts r)
  && (Zod.number (totalPrice r) && Zod.nonnegative (totalPrice r))
  && Zod.string_min 1 (currency r).

(* ===================================================================== *)
(** * Effects: the console and exceptions *)
(* ===================================================================== *)

(** A thrown value: an [Error] with its message, or anything else. *)
Inductive thrown : Type :=
| JsError (message : jsstring)
| NotAnError.

(** What the code writes to the console.  Numbers and thrown values are
    kept as values, not rendered to text. *)
Inductive log_entry : Type :=
| warn (text : jsstring)
| warn_total_mismatch (calculated reported : number)
| warn_with (text : jsstring) (e : thrown)
| error_with (text : jsstring) (e : thrown)
| time (label : jsstring)
| timeEnd (label : jsstring).

Definition console := list log_entry.

Inductive completion (A : Type) : Type :=
| Normal (a : A)
| Throw (e : thrown).

Arguments Normal {A} a.
Arguments Throw {A} e.

Definition Eff (A : Type) : Type := console -> completion A * console.

Definition ret {A : Type} (a : A) : Eff A := fun c => (Normal a, c).

Definition bind {A B : Type} (m : Eff A) (k : A -> Eff B) : Eff B :=
  fun c =>
    match m c with
    | (Normal a, c') => k a c'
    | (Throw e, c') => (Throw e, c')
    end.

Definition throw {A : Type} (e : thrown) : Eff A := fun c => (Throw e, c).

Definition console_log (entry : log_entry) : Eff unit :=
  fun c => (Normal tt, c ++ [entry]).

(** [try { m } catch (e) { handler e }] *)
Definition try_catch {A : Type} (m : Eff A) (handler : thrown -> Eff A) : Eff A :=
  fun c =>
    match m c with
    | (Normal a, c') => (Normal a, c')
    | (Throw e, c') => handler e c'
    end.

(** The outcome of an [await]ed or called external computation. *)
Definition lift {A : Type} (r : completion A) : Eff A := fun c => (r, c).

(** [if (b) { m }] *)
Definition when (b : bool) (m : Eff unit) : Eff unit :=
  if b then m else ret tt.

Declare Scope eff_scope.
Delimit Scope eff_scope with eff.
Notation "x <- m ;; k" := (bind m (fun x => k))
  (at level 61, m at next level, right associativity) : eff_scope.
Notation "m ;; k" := (bind m (fun _ => k))
  (at level 61, right associativity) : eff_scope.

Local Open Scope eff_scope.

(** [for (const x of l) { body x }] *)
Fixpoint for_of {A : Type} (l : list A) (body : A -> Eff unit) : Eff unit :=
  match l with
  | [] => ret tt
  | x :: l' => body x ;; for_of l' body
  end.

(* ===================================================================== *)
(** * ReceiptProcessor *)
(* ===================================================================== *)

(** The two reductions of [validateBusinessLogic]: [Array.prototype.reduce]
    folds from the left, starting from [0]. *)
Definition itemsTotal (r : ReceiptAnalysisResult.t) : number :=
  fold_left
    (fun sum item => (sum + ReceiptItem.price item * ReceiptItem.quantity item)%js)
    (items r) (num 0).

Definition includedAdditionalCosts (r : ReceiptAnalysisResult.t) : number :=
  fold_left
    (fun sum cost => (sum + AdditionalCost.amount cost)%js)
    (filter AdditionalCost.additionalCost (or_empty (additionalCosts r)))
    (num 0).

Definition calculatedTotal (r : ReceiptAnalysisResult.t) : number :=
  (itemsTotal r + includedAdditionalCosts r)%js.

Definition tolerance : number := num 0.01.

Definition check_additional_cost (cost : AdditionalCost.t) : Eff unit :=
  when (AdditionalCost.amount cost < num 0)%js
    (throw (JsError (lit "Additional cost amount cannot be negative: "
                       ++ AdditionalCost.name cost))) ;;
  when (negb (truthy (AdditionalCost.name cost))
        || (length (trim (AdditionalCost.name cost)) =? 0))
    (throw (JsError (lit "Additional cost name cannot be empty"))).

Definition validateBusinessLogic (result : ReceiptAnalysisResult.t) : Eff unit :=
  when (negb (truthy_opt (errorText result)) && (0 <? length (items result)))
    (when (abs (calculatedTotal result - totalPrice result) > tolerance)%js
       (console_log
          (warn_total_mismatch (calculatedTotal result) (totalPrice result)))) ;;
  when (truthy (currency result) && negb (length (currency result) =? 3))
    (throw (JsError (lit "Invalid currency format: " ++ currency result
                       ++ lit ". Expected 3-letter code (e.g., USD, EUR)"))) ;;
  when (truthy_opt (errorText result) && (0 <? length (items result)))
    (throw (JsError (lit "Images with errors should have empty items array"))) ;;
  when (negb (truthy_opt (errorText result)) && (length (items result) =? 0))
    (console_log (warn (lit "Receipt processed successfully but no items found"))) ;;
  match additionalCosts result with
  | Some costs => for_of costs check_additional_cost
  | None => ret tt
  end.

(** The value returned when parsing or validation fails. *)
Definition safe_default (text : string) : ReceiptAnalysisResult.t :=
  {| items := [];
     totalPrice := num 0;
     currency := lit "USD";
     currencySymbol := Some (lit "$");
     additionalCosts := Some [];
     errorText := Some (lit text) |}.

Definition llm_timer : jsstring := [55357; 56656]%N ++ lit " LLM API Request".

Section Processor.

(** The hosted model: from the image buffer to [String(response.content)],
    or the exception of the call. *)
Variable model_invoke : list Byte.byte -> completion jsstring.

(** [StructuredOutputParser]: the library extracts a JSON value of the
    shape of the schema from the text, or fails; when the schema then
    refuses the value, the library throws as well. *)
Variable parser_json : jsstring -> option ReceiptAnalysisResult.t.
Variable parser_exception : jsstring -> thrown.

Definition parser_parse (text : jsstring) : completion ReceiptAnalysisResult.t :=
  match parser_json text with
  | Some r =>
      if ReceiptAnalysisResultSchema r then Normal r
      else Throw (parser_exception text)
  | None => Throw (parser_exception text)
  end.

Definition is_parse_error (e : thrown) : bool :=
  match e with
  | JsError message =>
      includes message (lit "parsing")
      || includes message (lit "validation")
      || includes message (lit "schema")
  | NotAnError => false
  end.

Definition failure_message (e : thrown) : jsstring :=
  match e with
  | JsError message => message
  | NotAnError => lit "Unknown error"
  end.

Definition processReceiptImage (imageBuffer : list Byte.byte)
  : Eff ReceiptAnalysisResult.t :=
  try_catch
    (console_log (time llm_timer) ;;
     response <- lift (model_invoke imageBuffer) ;;
     console_log (timeEnd llm_timer) ;;
     try_catch
       (result <- lift (parser_parse response) ;;
        validateBusinessLogic result ;;
        ret result)
       (fun validationError =>
          console_log
            (warn_with
               (lit "Failed to parse receipt data, returning safe default:")
               validationError) ;;
          ret (safe_default "parsing error")))
    (fun error =>
       console_log (error_with (lit "Error processing receipt:") error) ;;
       if is_parse_error error then
         console_log
           (warn (lit "Failed to parse receipt data, returning safe default")) ;;
         ret (safe_default "processing error")
       else
         throw (JsError (lit "Failed to process receipt: "
                           ++ failure_message error))).

End Processor.

(** ** Outcomes of the validator *)

(** The validator returns without throwing. *)
Definition accepts (r : ReceiptAnalysisResult.t) : bool :=
  match fst (validateBusinessLogic r []) with
  | Normal _ => true
  | Throw _ => false
  end.

(** What one call of the validator writes to a fresh console. *)
Definition diagnostics (r : ReceiptAnalysisResult.t) : console :=
  snd (validateBusinessLogic r []).

(** The arithmetic check found a mismatch: the test of the inner [if]. *)
Definition mismatch (r : ReceiptAnalysisResult.t) : bool :=
  (abs (calculatedTotal r - totalPrice r) > tolerance)%js.

(** The exceptions of the validator. *)
Definition currency_error (r : ReceiptAnalysisResult.t) : thrown :=
  JsError (lit "Invalid currency format: " ++ currency r
             ++ lit ". Expected 3-letter code (e.g., USD, EUR)").

Definition items_error : thrown :=
  JsError (lit "Images with errors should have empty items array").

Definition negative_amount_error (cost : AdditionalCost.t) : thrown :=
  JsError (lit "Additional cost amount cannot be negative: "
             ++ AdditionalCost.name cost).

Definition empty_name_error : thrown :=
  JsError (lit "Additional cost name cannot be empty").

Definition no_items_warning : log_entry :=
  warn (lit "Receipt processed successfully but no items found").

(** ** The rules of the specification, in its words *)

(** "[errorText] is set and non-empty" *)
Definition non_empty_text (o : option jsstring) : Prop :=
  exists t, o = Some t /\ t <> [].

(** Rule 1: the currency, when non-empty, has length exactly 3. *)
Definition rule_currency (r : ReceiptAnalysisResult.t) : Prop :=
  currency r <> [] -> length (currency r) = 3.

(** Rule 2: a non-empty [errorText] comes with no items. *)
Definition rule_exclusive (r : ReceiptAnalysisResult.t) : Prop :=
  non_empty_text (errorText r) -> items r = [].

(** Rule 3 for one entry: [amount >= 0], and a name that is non-empty
    after trimming. *)
Definition cost_sane (cost : AdditionalCost.t) : Prop :=
  (AdditionalCost.amount cost >= num 0)%js = true
  /\ trim (AdditionalCost.name cost) <> [].

Definition rule_costs (r : ReceiptAnalysisResult.t) : Prop :=
  forall cost, In cost (or_empty (additionalCosts r)) -> cost_sane cost.

(** Rule 3 as the code checks it: the amount is not below zero, which
    is [amount >= 0] for every amount but NaN. *)
Definition cost_not_below_zero (cost : AdditionalCost.t) : Prop :=
  (isNaN (AdditionalCost.amount cost) = true
   \/ (AdditionalCost.amount cost >= num 0)%js = true)
  /\ trim (AdditionalCost.name cost) <> [].

Definition rule_costs_not_below_zero (r : ReceiptAnalysisResult.t) : Prop :=
  forall cost, In cost (or_empty (additionalCosts r)) -> cost_not_below_zero cost.

(** A name that is empty or made of white space only. *)
Definition blank (s : jsstring) : Prop :=
  s = [] \/ Forall (fun ch => is_white_space ch = true) s.

(** Rule 4 in the words of the specification: sums of a sequence of
    numbers, taken in order from zero. *)
Definition sum (l : list number) : number := fold_left add l (num 0).

Definition itemsSubtotal (r : ReceiptAnalysisResult.t) : number :=
  sum (map (fun i => (ReceiptItem.price i * ReceiptItem.quantity i)%js) (items r)).

Definition includedExtra (r : ReceiptAnalysisResult.t) : number :=
  sum (map AdditionalCost.amount
         (filter AdditionalCost.additionalCost (or_empty (additionalCosts r)))).

(** ** The validator in closed form *)

Fixpoint first_cost_error (costs : list AdditionalCost.t) : completion unit :=
  match costs with
  | [] => Normal tt
  | cost :: rest =>
      if (AdditionalCost.amount cost < num 0)%js
      then Throw (negative_amount_error cost)
      else if negb (truthy (AdditionalCost.name cost))
              || (length (trim (AdditionalCost.name cost)) =? 0)
           then Throw empty_name_error
           else first_cost_error rest
  end.

Definition bad_currency (r : ReceiptAnalysisResult.t) : bool :=
  truthy (currency r) && negb (length (currency r) =? 3).

Definition error_with_items (r : ReceiptAnalysisResult.t) : bool :=
  truthy_opt (errorText r) && (0 <? length (items r)).

Definition verdict (r : ReceiptAnalysisResult.t) : completion unit :=
  if bad_currency r then Throw (currency_error r)
  else if error_with_items r then Throw items_error
  else first_cost_error (or_empty (additionalCosts r)).

Definition notes (r : ReceiptAnalysisResult.t) : console :=
  (if negb (truthy_opt (errorText r)) && (0 <? length (items r)) && mismatch r
   then [warn_total_mismatch (calculatedTotal r) (totalPrice r)] else [])
  ++ (if negb (bad_currency r) && negb (error_with_items r)
         && negb (truthy_opt (errorText r)) && (length (items r) =? 0)
      then [no_items_warning] else []).

(** ** Receipts of the examples *)

Definition mk_item (p q : float) : ReceiptItem.t :=
  {| ReceiptItem.name := lit "item";
     ReceiptItem.quantity := num q;
     ReceiptItem.price := num p |}.

Definition mk_cost (name : string) (a : number) (flag : bool) : AdditionalCost.t :=
  {| AdditionalCost.name := lit name;
     AdditionalCost.amount := a;
     AdditionalCost.additionalCost := flag |}.

Definition receipt (its : list ReceiptItem.t) (costs : option (list AdditionalCost.t))
  (total : number) (cur : string) (err : option jsstring) : ReceiptAnalysisResult.t :=
  {| items := its;
     additionalCosts := costs;
     totalPrice := total;
     currency := lit cur;
     currencySymbol := Some (lit "$");
     errorText := err |}.

Definition two_items : list ReceiptItem.t := [mk_item 4.5 2; mk_item 8.99 1].

Definition with_errorText (r : ReceiptAnalysisResult.t) (e : option jsstring)
  : ReceiptAnalysisResult.t :=
  {| items := items r;
     additionalCosts := additionalCosts r;
     totalPrice := totalPrice r;
     currency := currency r;
     currencySymbol := currencySymbol r;
     errorText := e |}.

(** A result goes through the schema of the parser, then through the
    validator, as in [processReceiptImage]. *)
Definition admitted (r : ReceiptAnalysisResult.t) : bool :=
  ReceiptAnalysisResultSchema r && accepts r.

Definition nan_tax_receipt : ReceiptAnalysisResult.t :=
  receipt two_items (Some [mk_cost "tax" S754_nan false]) (num 17.99) "USD" None.

Definition blurry_receipt : ReceiptAnalysisResult.t :=
  receipt two_items None (num 17.99) "USD" (Some (lit "too blurry")).

Definition negative_tip_receipt : ReceiptAnalysisResult.t :=
  receipt two_items (Some [mk_cost "tip" (num (-1)) false]) (num 17.99) "USD" None.

Definition blank_fee_receipt : ReceiptAnalysisResult.t :=
  receipt two_items (Some [mk_cost "   " (num 1) false]) (num 17.99) "USD" None.

Definition ten_plus_one_receipt : ReceiptAnalysisResult.t :=
  receipt [mk_item 10 1] (Some [mk_cost "service" (num 1) true]) (num 11) "USD" None.

Definition empty_text_receipt : ReceiptAnalysisResult.t :=
  receipt two_items None (num 20) "USD" (Some (lit "")).

Definition empty_text_bad_currency : ReceiptAnalysisResult.t :=
  receipt [] None (num 0) "US" (Some (lit "")).

Definition no_currency_receipt : ReceiptAnalysisResult.t :=
  receipt two_items None (num 17.99) "" None.

Definition seven_cents_receipt : ReceiptAnalysisResult.t :=
  receipt [mk_item 0.07 1] None (num 0.06) "USD" None.

(** The price and the quantity of every item, in order. *)
Definition lines (r : ReceiptAnalysisResult.t) : list (number * number) :=
  map (fun i => (ReceiptItem.price i, ReceiptItem.quantity i)) (items r).

(** A model that answers with text that is not JSON, and a parser that
    fails on it. *)
Definition garbage_model (_ : list Byte.byte) : completion jsstring :=
  Normal (lit "not valid json{{").

Definition no_json (_ : jsstring) : option ReceiptAnalysisResult.t := None.

(** A model and a parser that deliver a receipt the validator refuses. *)
Definition blurry_json (_ : jsstring) : option ReceiptAnalysisResult.t :=
  Some blurry_receipt.

(** A model whose call fails with the given message. *)
Definition failing_model (message : string) (_ : list Byte.byte)
  : completion jsstring :=
  Throw (JsError (lit message)).

Definition parse_exception (_ : jsstring) : thrown :=
  JsError (lit "Failed to parse").

(* ===================================================================== *)
(** * The earlier version of ReceiptProcessor *)
(* ===================================================================== *)

(** The processor written for the Gemini client alone: the model is called
    through [withStructuredOutput], there is no inner [try], and the
    validator knows no additional costs. *)
Module Legacy.

Definition validateBusinessLogic (result : ReceiptAnalysisResult.t) : Eff unit :=
  when (negb (truthy_opt (errorText result)) && (0 <? length (items result)))
    (when (abs (itemsTotal result - totalPrice result) > tolerance)%js
       (console_log
          (warn_total_mismatch (itemsTotal result) (totalPrice result)))) ;;
  when (truthy (currency result) && negb (length (currency result) =? 3))
    (throw (JsError (lit "Invalid currency format: " ++ currency result
                       ++ lit ". Expected 3-letter code (e.g., USD, EUR)"))) ;;
  when (truthy_opt (errorText result) && (0 <? length (items result)))
    (throw (JsError (lit "Images with errors should have empty items array"))) ;;
  when (negb (truthy_opt (errorText result)) && (length (items result) =? 0))
    (console_log (warn (lit "Receipt processed successfully but no items found"))).

Definition safe_default : ReceiptAnalysisResult.t :=
  {| items := [];
     totalPrice := num 0;
     currency := lit "USD";
     currencySymbol := Some (lit "$");
     additionalCosts := None;
     errorText := Some (lit "processing error") |}.

Section Processor.

(** [structuredModel.invoke]: the parsed result, or the exception of the
    call or of the parsing the client does. *)
Variable structured_invoke : list Byte.byte -> completion ReceiptAnalysisResult.t.

Definition processReceiptImage (imageBuffer : list Byte.byte)
  : Eff ReceiptAnalysisResult.t :=
  try_catch
    (result <- lift (structured_invoke imageBuffer) ;;
     validateBusinessLogic result ;;
     ret result)
    (fun error =>
       console_log (error_with (lit "Error processing receipt:") error) ;;
       if is_parse_error error then
         console_log
           (warn (lit "Failed to parse receipt data, returning safe default")) ;;
         ret safe_default
       else
         throw (JsError (lit "Failed to process receipt: "
                           ++ failure_message error))).

End Processor.

Definition accepts (r : ReceiptAnalysisResult.t) : bool :=
  match fst (validateBusinessLogic r []) with
  | Normal _ => true
  | Throw _ => false
  end.

(** The validator in closed form. *)
Definition verdict (r : ReceiptAnalysisResult.t) : completion unit :=
  if bad_currency r then Throw (currency_error r)
  else if error_with_items r then Throw items_error
  else Normal tt.

Definition notes (r : ReceiptAnalysisResult.t) : console :=
  (if negb (truthy_opt (errorText r)) && (0 <? length (items r))
      && (abs (itemsTotal r - totalPrice r) > tolerance)%js
   then [warn_total_mismatch (itemsTotal r) (totalPrice r)] else [])
  ++ (if negb (bad_currency r) && negb (error_with_items r)
         && negb (truthy_opt (errorText r)) && (length (items r) =? 0)
      then [no_items_warning] else []).

(** What the validator throws on a result it refuses. *)
Definition rejection (r : ReceiptAnalysisResult.t) : thrown :=
  if bad_currency r then currency_error r else items_error.

End Legacy.

(* ===================================================================== *)
(** * The HTTP layer: middleware/imageUpload.ts and app.ts *)
(* ===================================================================== *)

(** The two properties of [req.file] the code reads and writes. *)
Module File.
Record t : Type := Build
  { buffer : list Byte.byte;
    mimetype : jsstring }.
End File.

Module ReceiptProcessingError.
Record t : Type := Build
  { error : jsstring;
    message : jsstring }.
End ReceiptProcessingError.

Module ReceiptProcessingResponse.
Record t : Type := Build
  { success : bool;
    data : option ReceiptAnalysisResult.t;
    error : option ReceiptProcessingError.t }.
End ReceiptProcessingResponse.

Definition ReceiptProcessingResponseSchema (b : ReceiptProcessingResponse.t) : bool :=
  Zod.optional ReceiptAnalysisResultSchema (ReceiptProcessingResponse.data b).

(** What [res.status(n).json(body)] sends; [res.json(body)] sends it with
    status 200. *)
Module Response.
Record t : Type := Build
  { status : nat;
    body : ReceiptProcessingResponse.t }.
End Response.

Definition failure (status : nat) (code message : jsstring) : Response.t :=
  {| Response.status := status;
     Response.body :=
       {| ReceiptProcessingResponse.success := false;
          ReceiptProcessingResponse.data := None;
          ReceiptProcessingResponse.error :=
            Some {| ReceiptProcessingError.error := code;
                    ReceiptProcessingError.message := message |} |} |}.

Definition succeeded (result : ReceiptAnalysisResult.t) : Response.t :=
  {| Response.status := 200;
     Response.body :=
       {| ReceiptProcessingResponse.success := true;
          ReceiptProcessingResponse.data := Some result;
          ReceiptProcessingResponse.error := None |} |}.

(** [===] on strings. *)
Fixpoint string_eqb (a b : jsstring) : bool :=
  match a, b with
  | [], [] => true
  | x :: a', y :: b' => (x =? y)%N && string_eqb a' b'
  | _, _ => false
  end.

(** [array.includes(x)] on an array of strings. *)
Definition array_includes (l : list jsstring) (x : jsstring) : bool :=
  existsb (fun y => string_eqb y x) l.

Definition allowedMimeTypes : list jsstring :=
  [lit "image/jpeg"; lit "image/jpg"; lit "image/png"; lit "image/webp";
   lit "image/gif"; lit "image/bmp"; lit "image/tiff"].

(** [fileFilter]: what it hands to the callback, [cb(null, true)] or
    [cb(new Error(...))]. *)
Definition fileFilter (file : File.t) : completion bool :=
  if array_includes allowedMimeTypes (File.mimetype file)
  then Normal true
  else Throw (JsError (lit "Only image files are allowed")).

(** A middleware either answers or calls [next()] with the request, of
    which [req.file] is kept. *)
Inductive step : Type :=
| Respond (r : Response.t)
| Next (file : option File.t).

(** The message of the handler's own answer to a missing file; the name of
    the field is between double quotes (code unit 34). *)
Definition missing_file_message : jsstring :=
  lit "No image file provided. Please upload an image using the "
  ++ [34%N] ++ lit "image" ++ [34%N] ++ lit " field.".

Section Http.

(** [sharp(buffer).resize(...).jpeg(...).toBuffer()] *)
Variable sharp : list Byte.byte -> completion (list Byte.byte).

Variable model_invoke : list Byte.byte -> completion jsstring.
Variable parser_json : jsstring -> option ReceiptAnalysisResult.t.
Variable parser_exception : jsstring -> thrown.

Definition processImage (file : option File.t) : Eff step :=
  try_catch
    (match file with
     | None =>
         ret (Respond (failure 400 (lit "MISSING_FILE")
                         (lit "No image file provided")))
     | Some f =>
         processedBuffer <- lift (sharp (File.buffer f)) ;;
         ret (Next (Some {| File.buffer := processedBuffer;
                            File.mimetype := lit "image/jpeg" |}))
     end)
    (fun error =>
       console_log (error_with (lit "Error processing image:") error) ;;
       ret (Respond (failure 500 (lit "IMAGE_PROCESSING_ERROR")
                       (lit "Failed to process the uploaded image")))).

(** The handler of POST /api/receipt/process. *)
Definition process_route (file : option File.t) : Eff Response.t :=
  try_catch
    (match file with
     | None => ret (failure 400 (lit "MISSING_FILE") missing_file_message)
     | Some f =>
         result <- processReceiptImage model_invoke parser_json parser_exception
                     (File.buffer f) ;;
         ret (succeeded result)
     end)
    (fun error =>
       console_log (error_with (lit "Receipt processing error:") error) ;;
       ret (failure 500 (lit "PROCESSING_ERROR")
              match error with
              | JsError message => message
              | NotAnError =>
                  lit "An unexpected error occurred while processing the receipt"
              end)).

(** The error-handling middleware. *)
Definition error_middleware (error : thrown) : Eff Response.t :=
  console_log (error_with (lit "Unhandled error:") error) ;;
  ret (failure 500 (lit "INTERNAL_ERROR")
         (lit "An internal server error occurred")).

(** The chain of the route.  [uploaded] is what [upload.single("image")]
    leaves: [req.file], set or not, or the error it passes to [next],
    which Express hands to the error-handling middleware. *)
Definition post_receipt (uploaded : completion (option File.t)) : Eff Response.t :=
  match uploaded with
  | Throw e => error_middleware e
  | Normal file =>
      s <- processImage file ;;
      match s with
      | Respond r => ret r
      | Next file' => process_route file'
      end
  end.

(** What the processor returns once the model has answered [text]. *)
Definition parsed_or_default (text : jsstring) : ReceiptAnalysisResult.t :=
  match parser_parse parser_json parser_exception text with
  | Normal r => if accepts r then r else safe_default "parsing error"
  | Throw _ => safe_default "parsing error"
  end.

(** The response of the route in closed form. *)
Definition route_response (uploaded : completion (option File.t)) : Response.t :=
  match uploaded with
  | Throw _ =>
      failure 500 (lit "INTERNAL_ERROR") (lit "An internal server error occurred")
  | Normal None =>
      failure 400 (lit "MISSING_FILE") (lit "No image file provided")
  | Normal (Some f) =>
      match sharp (File.buffer f) with
      | Throw _ =>
          failure 500 (lit "IMAGE_PROCESSING_ERROR")
            (lit "Failed to process the uploaded image")
      | Normal processed =>
          match model_invoke processed with
          | Normal text => succeeded (parsed_or_default text)
          | Throw cause =>
              if is_parse_error cause
              then succeeded (safe_default "processing error")
              else failure 500 (lit "PROCESSING_ERROR")
                     (lit "Failed to process receipt: " ++ failure_message cause)
          end
      end
  end.

End Http.

(** The uniform envelope: a success carries status 200 and data that
    passes the schema and the validator, and no error; a failure carries
    no data and one of the four error codes, [MISSING_FILE] with status 400
    and the others with status 500. *)
Definition well_formed_response (r : Response.t) : Prop :=
  match ReceiptProcessingResponse.data (Response.body r),
        ReceiptProcessingResponse.error (Response.body r) with
  | Some d, None =>
      Response.status r = 200
      /\ ReceiptProcessingResponse.success (Response.body r) = true
      /\ admitted d = true
  | None, Some e =>
      ReceiptProcessingResponse.success (Response.body r) = false
      /\ ((Response.status r = 400
           /\ ReceiptProcessingError.error e = lit "MISSING_FILE")
          \/ (Response.status r = 500
              /\ In (ReceiptProcessingError.error e)
                   [lit "PROCESSING_ERROR"; lit "IMAGE_PROCESSING_ERROR";
                    lit "INTERNAL_ERROR"]))
  | _, _ => False
  end.

Definition png_upload : File.t :=
  {| File.buffer := []; File.mimetype := lit "image/png" |}.

Definition failing_sharp (_ : list Byte.byte) : completion (list Byte.byte) :=
  Throw (JsError (lit "Input buffer contains unsupported image format")).

Definition blurry_structured (_ : list Byte.byte)
  : completion ReceiptAnalysisResult.t :=
  Normal blurry_receipt.

Definition identity_sharp (b : list Byte.byte) : completion (list Byte.byte) :=
  Normal b.

(* ===================================================================== *)
(** * The configuration: config.ts *)
(* ===================================================================== *)

(** The variables of [process.env] the configuration reads; each is a
    string or [undefined]. *)
Module Env.
Record t : Type := Build
  { PORT : option jsstring;
    NODE_ENV : option jsstring;
    GEMINI_API_KEY : option jsstring;
    OPEN_AI_API_KEY : option jsstring;
    LOG_LEVEL : option jsstring;
    MAX_FILE_SIZE : option jsstring;
    ALLOWED_IMAGE_TYPES : option jsstring;
    CORS_ORIGIN : option jsstring;
    RATE_LIMIT_WINDOW_MS : option jsstring;
    RATE_LIMIT_MAX_REQUESTS : option jsstring;
    RECEIPT_PROCESSING_TIMEOUT : option jsstring;
    RECEIPT_PROCESSING_RETRIES : option jsstring }.
End Env.

Module Config.
Record t : Type := Build
  { port : number;
    nodeEnv : jsstring;
    provider : jsstring;
    geminiApiKey : jsstring;
    openAiApiKey : jsstring;
    logLevel : jsstring;
    maxFileSize : number;
    allowedImageTypes : jsstring;
    corsOrigin : jsstring;
    rateLimitWindowMs : number;
    rateLimitMaxRequests : number;
    receiptProcessingTimeout : number;
    receiptProcessingRetries : number }.
End Config.

Module LLMConfig.
Record t : Type := Build
  { provider : jsstring;
    geminiApiKey : jsstring;
    openAiApiKey : jsstring;
    timeout : number;
    retries : number }.
End LLMConfig.

(** The chat model the constructor of [ReceiptProcessor] builds. *)
Inductive chat_model : Type :=
| ChatGoogleGenerativeAI (model apiKey : jsstring) (temperature : number)
| ChatOpenAI (model openAIApiKey : jsstring) (temperature : number).

Definition ReceiptProcessor_model (config : LLMConfig.t) : chat_model :=
  if string_eqb (LLMConfig.provider config) (lit "google")
  then ChatGoogleGenerativeAI (lit "gemini-2.5-flash")
         (LLMConfig.geminiApiKey config) (num 0.01)
  else ChatOpenAI (lit "gpt-4o-mini") (LLMConfig.openAiApiKey config) (num 0.01).

(** What loading the configuration ends in: the configuration, or
    [process.exit(1)] after the paths of the fields the schema refused have
    been printed. *)
Inductive loaded : Type :=
| Loaded (config : Config.t)
| Exited (code : nat) (paths : list jsstring).

(** [a ?? b] *)
Definition nullish {A : Type} (a : option A) (b : A) : A :=
  match a with
  | Some x => x
  | None => b
  end.

Section Configuration.

(** [Number(s)], the conversion of a string to a number. *)
Variable Number : jsstring -> number.

(** [z.coerce.number().default(d)]: the default for [undefined], and
    otherwise [Number] of the value, refused when it is NaN. *)
Definition coerce_number_default (d : number) (v : option jsstring)
  : option number :=
  match v with
  | None => Some d
  | Some s => if isNaN (Number s) then None else Some (Number s)
  end.

(** [z.enum(values).default(d)] *)
Definition enum_default (values : list jsstring) (d : jsstring)
  (v : option jsstring) : option jsstring :=
  match v with
  | None => Some d
  | Some s => if array_includes values s then Some s else None
  end.

(** [z.string().default(d)] *)
Definition string_default (d : jsstring) (v : option jsstring) : option jsstring :=
  Some (nullish v d).

(** [z.string().min(1, ...)] on a string. *)
Definition string_required (s : jsstring) : option jsstring :=
  if Zod.string_min 1 s then Some s else None.

Definition node_envs : list jsstring :=
  [lit "development"; lit "production"; lit "test"].

Definition providers : list jsstring := [lit "google"; lit "openai"].

Definition log_levels : list jsstring :=
  [lit "error"; lit "warn"; lit "info"; lit "debug"].

Definition default_image_types : jsstring :=
  lit "image/jpeg,image/jpg,image/png,image/webp,image/gif,image/bmp,image/tiff".

(** The fields of [ConfigSchema], each applied to the value the object
    literal of [ConfigSchema.parse] gives it.  The literal has no
    [provider]. *)
Definition f_port (env : Env.t) := coerce_number_default (num 3000) (Env.PORT env).
Definition f_nodeEnv (env : Env.t) :=
  enum_default node_envs (lit "development") (Env.NODE_ENV env).
Definition f_provider (env : Env.t) :=
  enum_default providers (lit "google") None.
Definition f_geminiApiKey (env : Env.t) :=
  string_required (nullish (Env.GEMINI_API_KEY env) (lit "placeholder")).
Definition f_openAiApiKey (env : Env.t) :=
  string_required (nullish (Env.OPEN_AI_API_KEY env) (lit "placeholder")).
Definition f_logLevel (env : Env.t) :=
  enum_default log_levels (lit "info") (Env.LOG_LEVEL env).
Definition f_maxFileSize (env : Env.t) :=
  coerce_number_default (num 5 * num 1024 * num 1024)%js (Env.MAX_FILE_SIZE env).
Definition f_allowedImageTypes (env : Env.t) :=
  string_default default_image_types (Env.ALLOWED_IMAGE_TYPES env).
Definition f_corsOrigin (env : Env.t) :=
  string_default (lit "http://localhost:3000") (Env.CORS_ORIGIN env).
Definition f_rateLimitWindowMs (env : Env.t) :=
  coerce_number_default (num 15 * num 60 * num 1000)%js
    (Env.RATE_LIMIT_WINDOW_MS env).
Definition f_rateLimitMaxRequests (env : Env.t) :=
  coerce_number_default (num 10) (Env.RATE_LIMIT_MAX_REQUESTS env).
Definition f_receiptProcessingTimeout (env : Env.t) :=
  coerce_number_default (num 30000) (Env.RECEIPT_PROCESSING_TIMEOUT env).
Definition f_receiptProcessingRetries (env : Env.t) :=
  coerce_number_default (num 3) (Env.RECEIPT_PROCESSING_RETRIES env).

Definition obind {A B : Type} (o : option A) (k : A -> option B) : option B :=
  match o with
  | Some a => k a
  | None => None
  end.

(** [ConfigSchema.parse]: the configuration when every field passes. *)
Definition ConfigSchema_parse (env : Env.t) : option Config.t :=
  obind (f_port env) (fun port =>
  obind (f_nodeEnv env) (fun nodeEnv =>
  obind (f_provider env) (fun provider =>
  obind (f_geminiApiKey env) (fun geminiApiKey =>
  obind (f_openAiApiKey env) (fun openAiApiKey =>
  obind (f_logLevel env) (fun logLevel =>
  obind (f_maxFileSize env) (fun maxFileSize =>
  obind (f_allowedImageTypes env) (fun allowedImageTypes =>
  obind (f_corsOrigin env) (fun corsOrigin =>
  obind (f_rateLimitWindowMs env) (fun rateLimitWindowMs =>
  obind (f_rateLimitMaxRequests env) (fun rateLimitMaxRequests =>
  obind (f_receiptProcessingTimeout env) (fun receiptProcessingTimeout =>
  obind (f_receiptProcessingRetries env) (fun receiptProcessingRetries =>
  Some {| Config.port := port;
          Config.nodeEnv := nodeEnv;
          Config.provider := provider;
          Config.geminiApiKey := geminiApiKey;
          Config.openAiApiKey := openAiApiKey;
          Config.logLevel := logLevel;
          Config.maxFileSize := maxFileSize;
          Config.allowedImageTypes := allowedImageTypes;
          Config.corsOrigin := corsOrigin;
          Config.rateLimitWindowMs := rateLimitWindowMs;
          Config.rateLimitMaxRequests := rateLimitMaxRequests;
          Config.receiptProcessingTimeout := receiptProcessingTimeout;
          Config.receiptProcessingRetries := receiptProcessingRetries |}
  ))))))))))))).

(** The path of a field the schema refused. *)
Definition issue {A : Type} (path : string) (v : option A) : list jsstring :=
  match v with
  | Some _ => []
  | None => [lit path]
  end.

Definition ConfigSchema_issues (env : Env.t) : list jsstring :=
  issue "port" (f_port env) ++ issue "nodeEnv" (f_nodeEnv env)
  ++ issue "provider" (f_provider env)
  ++ issue "geminiApiKey" (f_geminiApiKey env)
  ++ issue "openAiApiKey" (f_openAiApiKey env)
  ++ issue "logLevel" (f_logLevel env)
  ++ issue "maxFileSize" (f_maxFileSize env)
  ++ issue "allowedImageTypes" (f_allowedImageTypes env)
  ++ issue "corsOrigin" (f_corsOrigin env)
  ++ issue "rateLimitWindowMs" (f_rateLimitWindowMs env)
  ++ issue "rateLimitMaxRequests" (f_rateLimitMaxRequests env)
  ++ issue "receiptProcessingTimeout" (f_receiptProcessingTimeout env)
  ++ issue "receiptProcessingRetries" (f_receiptProcessingRetries env).

(** [config]: the value of the immediately invoked function. *)
Definition config (env : Env.t) : loaded :=
  match ConfigSchema_parse env with
  | Some c => Loaded c
  | None => Exited 1 (ConfigSchema_issues env)
  end.

End Configuration.

(** The earlier configuration: one provider, and the key of Gemini read
    from the environment as it is. *)
Module LegacyConfig.

Record t : Type := Build
  { port : number;
    nodeEnv : jsstring;
    geminiApiKey : jsstring;
    logLevel : jsstring;
    maxFileSize : number;
    allowedImageTypes : jsstring;
    corsOrigin : jsstring;
    rateLimitWindowMs : number;
    rateLimitMaxRequests : number;
    receiptProcessingTimeout : number;
    receiptProcessingRetries : number }.

Inductive loaded : Type :=
| Loaded (config : t)
| Exited (code : nat) (paths : list jsstring).

Section Configuration.

Variable Number : jsstring -> number.

(** [z.string().min(1, ...)] on a value that may be [undefined]. *)
Definition f_geminiApiKey (env : Env.t) : option jsstring :=
  obind (Env.GEMINI_API_KEY env) string_required.

Definition ConfigSchema_parse (env : Env.t) : option t :=
  obind (f_port Number env) (fun port =>
  obind (f_nodeEnv env) (fun nodeEnv =>
  obind (f_geminiApiKey env) (fun geminiApiKey =>
  obind (f_logLevel env) (fun logLevel =>
  obind (f_maxFileSize Number env) (fun maxFileSize =>
  obind (f_allowedImageTypes env) (fun allowedImageTypes =>
  obind (f_corsOrigin env) (fun corsOrigin =>
  obind (f_rateLimitWindowMs Number env) (fun rateLimitWindowMs =>
  obind (f_rateLimitMaxRequests Number env) (fun rateLimitMaxRequests =>
  obind (f_receiptProcessingTimeout Number env) (fun receiptProcessingTimeout =>
  obind (f_receiptProcessingRetries Number env) (fun receiptProcessingRetries =>
  Some {| port := port;
          nodeEnv := nodeEnv;
          geminiApiKey := geminiApiKey;
          logLevel := logLevel;
          maxFileSize := maxFileSize;
          allowedImageTypes := allowedImageTypes;
          corsOrigin := corsOrigin;
          rateLimitWindowMs := rateLimitWindowMs;
          rateLimitMaxRequests := rateLimitMaxRequests;
          receiptProcessingTimeout := receiptProcessingTimeout;
          receiptProcessingRetries := receiptProcessingRetries |}
  ))))))))))).

Definition ConfigSchema_issues (env : Env.t) : list jsstring :=
  issue "port" (f_port Number env) ++ issue "nodeEnv" (f_nodeEnv env)
  ++ issue "geminiApiKey" (f_geminiApiKey env)
  ++ issue "logLevel" (f_logLevel env)
  ++ issue "maxFileSize" (f_maxFileSize Number env)
  ++ issue "allowedImageTypes" (f_allowedImageTypes env)
  ++ issue "corsOrigin" (f_corsOrigin env)
  ++ issue "rateLimitWindowMs" (f_rateLimitWindowMs Number env)
  ++ issue "rateLimitMaxRequests" (f_rateLimitMaxRequests Number env)
  ++ issue "receiptProcessingTimeout" (f_receiptProcessingTimeout Number env)
  ++ issue "receiptProcessingRetries" (f_receiptProcessingRetries Number env).

Definition config (env : Env.t) : loaded :=
  match ConfigSchema_parse env with
  | Some c => Loaded c
  | None => Exited 1 (ConfigSchema_issues env)
  end.

End Configuration.

End LegacyConfig.

Definition llmConfig (config : Config.t) : LLMConfig.t :=
  {| LLMConfig.provider := Config.provider config;
     LLMConfig.geminiApiKey := Config.geminiApiKey config;
     LLMConfig.openAiApiKey := Config.openAiApiKey config;
     LLMConfig.timeout := Config.receiptProcessingTimeout config;
     LLMConfig.retries := Config.receiptProcessingRetries config |}.

(** [s.split(sep)] for a separator of one code unit: the pieces between
    the separators, empty pieces included. *)
Fixpoint split_on (sep : N) (s : jsstring) : list jsstring :=
  match s with
  | [] => [[]]
  | ch :: s' =>
      if (ch =? sep)%N then [] :: split_on sep s'
      else match split_on sep s' with
           | piece :: pieces => (ch :: piece) :: pieces
           | [] => [[ch]]
           end
  end.

Module ImageConfig.
Record t : Type := Build
  { maxFileSize : number;
    allowedTypes : list jsstring }.
End ImageConfig.

(** The comma is code unit 44. *)
Definition imageConfig (config : Config.t) : ImageConfig.t :=
  {| ImageConfig.maxFileSize := Config.maxFileSize config;
     ImageConfig.allowedTypes := split_on 44 (Config.allowedImageTypes config) |}.

(** [limits.fileSize] of the multer instance. *)
Definition upload_fileSize : number := (num 5 * num 1024 * num 1024)%js.

Definition isDevelopment (config : Config.t) : bool :=
  string_eqb (Config.nodeEnv config) (lit "development").
Definition isProduction (config : Config.t) : bool :=
  string_eqb (Config.nodeEnv config) (lit "production").
Definition isTest (config : Config.t) : bool :=
  string_eqb (Config.nodeEnv config) (lit "test").

(** A variable is set to a value its field refuses. *)
Definition bad_number (Number : jsstring -> number) (v : option jsstring) : Prop :=
  exists s, v = Some s /\ isNaN (Number s) = true.

Definition bad_choice (values : list jsstring) (v : option jsstring) : Prop :=
  exists s, v = Some s /\ ~ In s values.

(** Some variable is set to a value that its field refuses. *)
Definition some_bad_value (Number : jsstring -> number) (env : Env.t) : Prop :=
  bad_number Number (Env.PORT env)
  \/ bad_choice node_envs (Env.NODE_ENV env)
  \/ Env.GEMINI_API_KEY env = Some []
  \/ Env.OPEN_AI_API_KEY env = Some []
  \/ bad_choice log_levels (Env.LOG_LEVEL env)
  \/ bad_number Number (Env.MAX_FILE_SIZE env)
  \/ bad_number Number (Env.RATE_LIMIT_WINDOW_MS env)
  \/ bad_number Number (Env.RATE_LIMIT_MAX_REQUESTS env)
  \/ bad_number Number (Env.RECEIPT_PROCESSING_TIMEOUT env)
  \/ bad_number Number (Env.RECEIPT_PROCESSING_RETRIES env).

Definition empty_env : Env.t :=
  {| Env.PORT := None; Env.NODE_ENV := None; Env.GEMINI_API_KEY := None;
     Env.OPEN_AI_API_KEY := None; Env.LOG_LEVEL := None;
     Env.MAX_FILE_SIZE := None; Env.ALLOWED_IMAGE_TYPES := None;
     Env.CORS_ORIGIN := None; Env.RATE_LIMIT_WINDOW_MS := None;
     Env.RATE_LIMIT_MAX_REQUESTS := None;
     Env.RECEIPT_PROCESSING_TIMEOUT := None;
     Env.RECEIPT_PROCESSING_RETRIES := None |}.

(** An environment that only sets [NODE_ENV]. *)
Definition env_with_node_env (v : string) : Env.t :=
  {| Env.PORT := None; Env.NODE_ENV := Some (lit v); Env.GEMINI_API_KEY := None;
     Env.OPEN_AI_API_KEY := None; Env.LOG_LEVEL := None;
     Env.MAX_FILE_SIZE := None; Env.ALLOWED_IMAGE_TYPES := None;
     Env.CORS_ORIGIN := None; Env.RATE_LIMIT_WINDOW_MS := None;
     Env.RATE_LIMIT_MAX_REQUESTS := None;
     Env.RECEIPT_PROCESSING_TIMEOUT := None;
     Env.RECEIPT_PROCESSING_RETRIES := None |}.

(** A stand-in for [Number] on the examples: no string is a number. *)
Definition no_number (_ : jsstring) : number := S754_nan.

(* ===================================================================== *)
(** * The validator on the object it is given *)
(* ===================================================================== *)

(** [validateBusinessLogic] receives a reference: the object [result]
    refers to could be changed by the method.  Here the method is written
    over a state that holds that object, with everything reachable from
    it, beside the console, so that what the method leaves in the object
    can be stated.  [get] is a property read [result.p]; [assign] is an
    assignment to a property of the object, of which the method has none. *)
Module Store.

Record state : Type := Build_state
  { object : ReceiptAnalysisResult.t;
    out : console }.

Definition M (A : Type) : Type := state -> completion A * state.

Definition ret {A : Type} (a : A) : M A := fun s => (Normal a, s).

Definition bind {A B : Type} (m : M A) (k : A -> M B) : M B :=
  fun s =>
    match m s with
    | (Normal a, s') => k a s'
    | (Throw e, s') => (Throw e, s')
    end.

Definition throw {A : Type} (e : thrown) : M A := fun s => (Throw e, s).

Definition get {A : Type} (property : ReceiptAnalysisResult.t -> A) : M A :=
  fun s => (Normal (property (object s)), s).

Definition assign (update : ReceiptAnalysisResult.t -> ReceiptAnalysisResult.t)
  : M unit :=
  fun s => (Normal tt, {| object := update (object s); out := out s |}).

Definition console_log (entry : log_entry) : M unit :=
  fun s => (Normal tt, {| object := object s; out := out s ++ [entry] |}).

Definition when (b : bool) (m : M unit) : M unit :=
  if b then m else ret tt.

Declare Scope store_scope.
Notation "x <- m ;; k" := (bind m (fun x => k))
  (at level 61, m at next level, right associativity) : store_scope.
Notation "m ;; k" := (bind m (fun _ => k))
  (at level 61, right associativity) : store_scope.

Local Open Scope store_scope.

(** [array.reduce(callback, init)], [array.filter(callback)] and
    [for (const x of array)], with callbacks and bodies that run in the
    state. *)
Fixpoint reduce {A B : Type} (callback : B -> A -> M B) (l : list A) (init : B)
  : M B :=
  match l with
  | [] => ret init
  | x :: l' => acc <- callback init x ;; reduce callback l' acc
  end.

Fixpoint filter {A : Type} (callback : A -> M bool) (l : list A) : M (list A) :=
  match l with
  | [] => ret []
  | x :: l' =>
      keep <- callback x ;;
      rest <- filter callback l' ;;
      ret (if keep then x :: rest else rest)
  end.

Fixpoint for_of {A : Type} (l : list A) (body : A -> M unit) : M unit :=
  match l with
  | [] => ret tt
  | x :: l' => body x ;; for_of l' body
  end.

Definition check_additional_cost (cost : AdditionalCost.t) : M unit :=
  when (AdditionalCost.amount cost < num 0)%js
    (throw (JsError (lit "Additional cost amount cannot be negative: "
                       ++ AdditionalCost.name cost))) ;;
  when (negb (truthy (AdditionalCost.name cost))
        || (length (trim (AdditionalCost.name cost)) =? 0))
    (throw (JsError (lit "Additional cost name cannot be empty"))).

Definition validateBusinessLogic : M unit :=
  errorText <- get ReceiptAnalysisResult.errorText ;;
  items <- get ReceiptAnalysisResult.items ;;
  when (negb (truthy_opt errorText) && (0 <? length items))
    (items <- get ReceiptAnalysisResult.items ;;
     itemsTotal <-
       reduce
         (fun sum item =>
            ret (sum + ReceiptItem.price item * ReceiptItem.quantity item)%js)
         items (num 0) ;;
     additionalCosts <- get ReceiptAnalysisResult.additionalCosts ;;
     included <-
       filter (fun cost => ret (AdditionalCost.additionalCost cost))
         (or_empty additionalCosts) ;;
     includedAdditionalCosts <-
       reduce (fun sum cost => ret (sum + AdditionalCost.amount cost)%js)
         included (num 0) ;;
     totalPrice <- get ReceiptAnalysisResult.totalPrice ;;
     when (abs (itemsTotal + includedAdditionalCosts - totalPrice) > tolerance)%js
       (totalPrice <- get ReceiptAnalysisResult.totalPrice ;;
        console_log
          (warn_total_mismatch (itemsTotal + includedAdditionalCosts)%js
             totalPrice))) ;;
  currency <- get ReceiptAnalysisResult.currency ;;
  when (truthy currency && negb (length currency =? 3))
    (currency <- get ReceiptAnalysisResult.currency ;;
     throw (JsError (lit "Invalid currency format: " ++ currency
                       ++ lit ". Expected 3-letter code (e.g., USD, EUR)"))) ;;
  errorText <- get ReceiptAnalysisResult.errorText ;;
  items <- get ReceiptAnalysisResult.items ;;
  when (truthy_opt errorText && (0 <? length items))
    (throw (JsError (lit "Images with errors should have empty items array"))) ;;
  errorText <- get ReceiptAnalysisResult.errorText ;;
  items <- get ReceiptAnalysisResult.items ;;
  when (negb (truthy_opt errorText) && (length items =? 0))
    (console_log (warn (lit "Receipt processed successfully but no items found"))) ;;
  additionalCosts <- get ReceiptAnalysisResult.additionalCosts ;;
  match additionalCosts with
  | Some costs => for_of costs check_additional_cost
  | None => ret tt
  end.

End Store.

(** A receipt with a tax counted in the total and a tip that is not, and
    a total that does not match. *)
Definition taxed_receipt : ReceiptAnalysisResult.t :=
  receipt two_items
    (Some [mk_cost "tax" (num 1.5) true; mk_cost "tip" (num 2) false])
    (num 25) "USD" None.

(** What the model is told to answer for an image that is no receipt. *)
Definition not_a_receipt : ReceiptAnalysisResult.t :=
  receipt [] (Some []) (num 0) "USD" (Some (lit "not a receipt")).

(** A result without items and without an error. *)
Definition empty_receipt : ReceiptAnalysisResult.t :=
  receipt [] None (num 0) "USD" None.

(* ===================================================================== *)
(** * Facts about strings and numbers *)
(* ===================================================================== *)

Section StringFacts.

Lemma trim_start_all_white (s : jsstring) :
  forallb is_white_space s = true -> trim_start s = [].
Proof.
  induction s as [|ch s IH]; simpl; [reflexivity|].
  intros H. apply andb_true_iff in H as [Hc Hs].
  rewrite Hc. auto.
Qed.

Lemma trim_start_nil_white (s : jsstring) :
  trim_start s = [] -> forallb is_white_space s = true.
Proof.
  induction s as [|ch s IH]; simpl; [reflexivity|].
  destruct (is_white_space ch); [auto | discriminate].
Qed.

(** A non-empty result of [trim_start] starts with a code unit that is not
    white space. *)
Lemma trim_start_head (s : jsstring) (ch : N) (t : jsstring) :
  trim_start s = ch :: t -> is_white_space ch = false.
Proof.
  induction s as [|a s IH]; simpl; [discriminate|].
  destruct (is_white_space a) eqn:E; [exact IH|].
  intros H. injection H as -> _. exact E.
Qed.

(** The trimmed string is empty exactly when every code unit of the
    string is white space (the empty string included). *)
Lemma trim_nil_iff (s : jsstring) :
  trim s = [] <-> forallb is_white_space s = true.
Proof.
  unfold trim. split.
  - intros H.
    destruct (trim_start s) as [|ch t] eqn:E.
    + now apply trim_start_nil_white.
    + exfalso.
      pose proof (trim_start_head _ _ _ E) as Hch.
      apply (f_equal (@rev N)) in H. rewrite rev_involutive in H. simpl in H.
      apply trim_start_nil_white in H.
      rewrite forallb_app in H. apply andb_true_iff in H as [_ H].
      simpl in H. rewrite Hch in H. discriminate.
  - intros H. rewrite (trim_start_all_white _ H). reflexivity.
Qed.

Lemma length_zero_nil {A : Type} (l : list A) :
  (length l =? 0) = true <-> l = [].
Proof.
  destruct l; simpl; split; intros H; try reflexivity; discriminate.
Qed.

Lemma truthy_false_nil (s : jsstring) : truthy s = false <-> s = [].
Proof.
  destruct s; simpl; split; intros H; try reflexivity; discriminate.
Qed.

Lemma positive_length {A : Type} (l : list A) :
  (0 <? length l) = true <-> l <> [].
Proof.
  destruct l; simpl; split; intros H; try discriminate; try reflexivity.
  - now contradiction H.
Qed.

End StringFacts.

Section NumberFacts.

Lemma num_zero : num 0 = S754_zero false.
Proof. reflexivity. Qed.

(** [a < 0] is false for the numbers that are at least zero, and for NaN. *)
Lemma not_below_zero (a : number) :
  (a < num 0)%js = false <-> isNaN a = true \/ (a >= num 0)%js = true.
Proof.
  rewrite num_zero.
  destruct a as [[|]|[|]| |[|] m e]; cbv; intuition congruence.
Qed.

End NumberFacts.

(* ===================================================================== *)
(** * The validator in closed form *)
(* ===================================================================== *)

Section ClosedForm.

Lemma for_of_check_additional_cost (costs : list AdditionalCost.t) (c : console) :
  for_of costs check_additional_cost c = (first_cost_error costs, c).
Proof.
  induction costs as [|cost rest IH]; simpl; [reflexivity|].
  unfold bind, check_additional_cost at 1, bind, when, throw, ret.
  destruct (AdditionalCost.amount cost < num 0)%js; [reflexivity|].
  destruct (negb (truthy (AdditionalCost.name cost))
            || (length (trim (AdditionalCost.name cost)) =? 0)); [reflexivity|].
  exact IH.
Qed.

(** One call of the validator: its completion is [verdict], and it appends
    [notes] to the console, whatever the console held. *)
Lemma validateBusinessLogic_closed_form (r : ReceiptAnalysisResult.t) (c : console) :
  validateBusinessLogic r c = (verdict r, c ++ notes r).
Proof.
  unfold validateBusinessLogic, verdict, notes, bind, when, throw, ret, console_log,
    bad_currency, error_with_items, mismatch.
  destruct (truthy_opt (errorText r)) eqn:Herr;
    destruct (0 <? length (items r)) eqn:Hpos;
    destruct (length (items r) =? 0) eqn:Hzero;
    destruct (truthy (currency r) && negb (length (currency r) =? 3)) eqn:Hcur;
    simpl;
    try destruct ((abs (calculatedTotal r - totalPrice r) > tolerance)%js);
    simpl; rewrite ?app_nil_r; try reflexivity;
    destruct (additionalCosts r) as [costs|]; simpl;
    rewrite ?for_of_check_additional_cost, <- ?app_assoc; reflexivity.
Qed.

Lemma accepts_verdict (r : ReceiptAnalysisResult.t) :
  accepts r = true <-> verdict r = Normal tt.
Proof.
  unfold accepts. rewrite validateBusinessLogic_closed_form. simpl.
  destruct (verdict r) as [[]|e]; split; intros H; try reflexivity; discriminate.
Qed.

Lemma diagnostics_notes (r : ReceiptAnalysisResult.t) : diagnostics r = notes r.
Proof.
  unfold diagnostics. rewrite validateBusinessLogic_closed_form. reflexivity.
Qed.

Lemma first_cost_error_ok (costs : list AdditionalCost.t) :
  first_cost_error costs = Normal tt
  <-> forall cost, In cost costs -> cost_not_below_zero cost.
Proof.
  induction costs as [|cost rest IH]; simpl.
  - split; [intros _ cost [] | reflexivity].
  - destruct (AdditionalCost.amount cost < num 0)%js eqn:Hneg.
    + split; [discriminate|]. intros H.
      destruct (H cost (or_introl eq_refl)) as [Hamount _].
      apply not_below_zero in Hamount. congruence.
    + destruct (truthy (AdditionalCost.name cost)) eqn:Hname; simpl.
      * destruct (length (trim (AdditionalCost.name cost)) =? 0) eqn:Htrim.
        -- split; [discriminate|]. intros H.
           destruct (H cost (or_introl eq_refl)) as [_ Hn].
           apply length_zero_nil in Htrim. contradiction.
        -- rewrite IH. split.
           ++ intros H x [<-|Hin]; [|now apply H].
              split; [now apply not_below_zero|].
              intros Hn. apply length_zero_nil in Hn. congruence.
           ++ intros H x Hin. apply H. now right.
      * split; [discriminate|]. intros H.
        destruct (H cost (or_introl eq_refl)) as [_ Hn].
        apply truthy_false_nil in Hname. rewrite Hname in Hn.
        now contradiction Hn.
Qed.

Lemma first_cost_error_throws (costs : list AdditionalCost.t) (cost : AdditionalCost.t) :
  In cost costs ->
  (AdditionalCost.amount cost < num 0)%js = true
  \/ trim (AdditionalCost.name cost) = [] ->
  exists e, first_cost_error costs = Throw e.
Proof.
  intros Hin Hbad.
  destruct (first_cost_error costs) as [[]|e] eqn:E; [|now exists e].
  exfalso.
  destruct (proj1 (first_cost_error_ok costs) E cost Hin) as [Hamount Hname].
  destruct Hbad as [Hneg|Hblank]; [|contradiction].
  apply not_below_zero in Hamount. congruence.
Qed.

Lemma bad_currency_false (r : ReceiptAnalysisResult.t) :
  bad_currency r = false <-> rule_currency r.
Proof.
  unfold bad_currency, rule_currency.
  destruct (currency r) as [|ch s] eqn:E; cbn [truthy andb].
  - split; [intros _ H; now contradiction H | reflexivity].
  - rewrite negb_false_iff, Nat.eqb_eq. split.
    + intros H _. exact H.
    + intros H. apply H. discriminate.
Qed.

Lemma error_with_items_false (r : ReceiptAnalysisResult.t) :
  error_with_items r = false <-> rule_exclusive r.
Proof.
  unfold error_with_items, rule_exclusive, non_empty_text.
  destruct (errorText r) as [[|ch t]|]; simpl.
  - split; [|reflexivity]. intros _ (t & Ht & Hne). injection Ht as <-.
    now contradiction Hne.
  - destruct (items r) as [|i l]; simpl.
    + split; reflexivity.
    + split; [discriminate|]. intros H.
      discriminate H. exists (ch :: t). split; [reflexivity | discriminate].
  - split; [|reflexivity]. intros _ (t & Ht & _). discriminate.
Qed.

End ClosedForm.

(* ===================================================================== *)
(** * Acceptance and the rules *)
(* ===================================================================== *)

Section Acceptance.

Lemma blank_trim (s : jsstring) : blank s -> trim s = [].
Proof.
  intros [-> | H]; [reflexivity|].
  apply trim_nil_iff, forallb_forall.
  now apply Forall_forall.
Qed.

Lemma verdict_ok (r : ReceiptAnalysisResult.t) :
  verdict r = Normal tt
  <-> bad_currency r = false /\ error_with_items r = false
      /\ first_cost_error (or_empty (additionalCosts r)) = Normal tt.
Proof.
  unfold verdict.
  destruct (bad_currency r); [intuition discriminate|].
  destruct (error_with_items r); intuition discriminate.
Qed.

Lemma accepts_checks (r : ReceiptAnalysisResult.t) :
  accepts r = true
  <-> bad_currency r = false /\ error_with_items r = false
      /\ first_cost_error (or_empty (additionalCosts r)) = Normal tt.
Proof. rewrite accepts_verdict. apply verdict_ok. Qed.

(** The schema leaves no NaN among the amounts. *)
Lemma schema_amounts_are_numbers (r : ReceiptAnalysisResult.t) (cost : AdditionalCost.t) :
  ReceiptAnalysisResultSchema r = true ->
  In cost (or_empty (additionalCosts r)) ->
  isNaN (AdditionalCost.amount cost) = false.
Proof.
  unfold ReceiptAnalysisResultSchema. intros H Hin.
  repeat (apply andb_true_iff in H as [H ?]).
  destruct (additionalCosts r) as [costs|]; simpl in *; [|contradiction].
  unfold Zod.array in *.
  match goal with
  | Hc : forallb AdditionalCostSchema costs = true |- _ =>
      rewrite forallb_forall in Hc; specialize (Hc cost Hin);
      unfold AdditionalCostSchema, Zod.number in Hc
  end.
  repeat match goal with
         | Hc : _ && _ = true |- _ => apply andb_true_iff in Hc as [? ?]
         end.
  now apply negb_true_iff.
Qed.

(** The validator on any value of the type, schema-valid or not.  It
    returns without throwing exactly on the results that satisfy rules 1
    to 3, where rule 3 reads: no amount is below zero (which is
    [amount >= 0] for every amount that is not NaN) and every name is
    non-empty after trimming.  The total, the items and the two advisory
    checks (rules 4 and 5) play no part in acceptance. *)
Theorem accepted_iff_rules (r : ReceiptAnalysisResult.t) :
  accepts r = true
  <-> rule_currency r /\ rule_exclusive r /\ rule_costs_not_below_zero r.
Proof.
  rewrite accepts_checks, bad_currency_false, error_with_items_false,
    first_cost_error_ok.
  reflexivity.
Qed.

(** On the results the parser hands over the schema has refused NaN, so
    an accepted result has [amount >= 0] for every additional cost. *)
Lemma admitted_satisfies_rules (r : ReceiptAnalysisResult.t) :
  admitted r = true -> rule_currency r /\ rule_exclusive r /\ rule_costs r.
Proof.
  unfold admitted. intros H. apply andb_true_iff in H as [Hschema Hacc].
  apply accepts_checks in Hacc as (Hcur & Hex & Hcosts).
  split; [now apply bad_currency_false|].
  split; [now apply error_with_items_false|].
  intros cost Hin.
  destruct (proj1 (first_cost_error_ok _) Hcosts cost Hin) as [[Hnan|Hge] Hname].
  - rewrite (schema_amounts_are_numbers r cost Hschema Hin) in Hnan. discriminate.
  - now split.
Qed.

(** Why the schema matters for rule 3: the validator's own test,
    [amount < 0], is false for NaN, so on a value that did not go through
    the parser a NaN amount would pass.  The schema refuses such a value
    before the validator runs. *)
Lemma nan_amount_accepted :
  accepts nan_tax_receipt = true /\ ~ rule_costs nan_tax_receipt.
Proof.
  split; [vm_compute; reflexivity|].
  intros H.
  destruct (H (mk_cost "tax" S754_nan false) (or_introl eq_refl)) as [Hge _].
  vm_compute in Hge. discriminate.
Qed.

(** C2.  A result that passes the schema and the validator has a currency
    of exactly three code units.  The currencies "US" and "USDOLLAR" make
    the validator throw its currency error; the empty currency passes the
    validator's test (the empty string is falsy) but the schema refuses it
    before the validator runs. *)
Theorem currency_exactly_three (r : ReceiptAnalysisResult.t) :
  (admitted r = true -> length (currency r) = 3)
  /\ (currency r = lit "US" \/ currency r = lit "USDOLLAR" ->
      forall c, fst (validateBusinessLogic r c) = Throw (currency_error r))
  /\ (currency r = lit "" -> ReceiptAnalysisResultSchema r = false).
Proof.
  split; [|split].
  - unfold admitted. intros H. apply andb_true_iff in H as [Hschema Hacc].
    apply accepts_checks in Hacc as (Hcur & _).
    apply bad_currency_false in Hcur.
    apply Hcur. intros Hnil.
    unfold ReceiptAnalysisResultSchema in Hschema.
    apply andb_true_iff in Hschema as [_ Hmin].
    rewrite Hnil in Hmin. discriminate.
  - intros H c. rewrite validateBusinessLogic_closed_form. simpl.
    unfold verdict, bad_currency.
    destruct H as [-> | ->]; reflexivity.
  - intros H. unfold ReceiptAnalysisResultSchema. rewrite H.
    apply andb_false_r.
Qed.

(** C3.  A result with a non-empty [errorText] and at least one item makes
    the validator throw: the currency error when the currency is
    malformed, the error about items present alongside an error otherwise. *)
Theorem error_with_items_rejected (r : ReceiptAnalysisResult.t)
  (Herr : non_empty_text (errorText r)) (Hitems : items r <> []) :
  forall c, fst (validateBusinessLogic r c)
            = Throw (if bad_currency r then currency_error r else items_error).
Proof.
  intros c. rewrite validateBusinessLogic_closed_form. simpl.
  unfold verdict.
  destruct (bad_currency r); [reflexivity|].
  destruct (error_with_items r) eqn:E; [reflexivity|].
  apply error_with_items_false in E. now contradiction Hitems; apply E.
Qed.

(** C4.  A result one of whose additional costs has a negative amount, or
    a name that is empty or white space only, makes the validator throw. *)
Theorem bad_additional_cost_rejected (r : ReceiptAnalysisResult.t)
  (cost : AdditionalCost.t)
  (Hin : In cost (or_empty (additionalCosts r)))
  (Hbad : (AdditionalCost.amount cost < num 0)%js = true
          \/ blank (AdditionalCost.name cost)) :
  forall c, exists e, fst (validateBusinessLogic r c) = Throw e.
Proof.
  intros c. rewrite validateBusinessLogic_closed_form. simpl.
  unfold verdict.
  destruct (bad_currency r); [eexists; reflexivity|].
  destruct (error_with_items r); [eexists; reflexivity|].
  apply (first_cost_error_throws _ cost Hin).
  destruct Hbad as [H|H]; [now left | right; now apply blank_trim].
Qed.

End Acceptance.

(* ===================================================================== *)
(** * The arithmetic check *)
(* ===================================================================== *)

Section Reconciliation.

Lemma fold_left_add_map {A : Type} (f : A -> number) (l : list A) (a : number) :
  fold_left (fun acc x => (acc + f x)%js) l a = fold_left add (map f l) a.
Proof.
  revert a. induction l as [|x l IH]; intros a; simpl; [reflexivity|].
  apply IH.
Qed.

Lemma itemsTotal_subtotal (r : ReceiptAnalysisResult.t) :
  itemsTotal r = itemsSubtotal r.
Proof. apply fold_left_add_map. Qed.

Lemma includedAdditionalCosts_extra (r : ReceiptAnalysisResult.t) :
  includedAdditionalCosts r = includedExtra r.
Proof. apply fold_left_add_map. Qed.

Lemma itemsSubtotal_lines (r : ReceiptAnalysisResult.t) :
  itemsSubtotal r = sum (map (fun l => (fst l * snd l)%js) (lines r)).
Proof.
  unfold itemsSubtotal, lines. rewrite map_map. reflexivity.
Qed.

(** What the validator writes when [errorText] is falsy and there are
    items: the mismatch warning or nothing. *)
Lemma notes_with_items (r : ReceiptAnalysisResult.t) :
  truthy_opt (errorText r) = false -> items r <> [] ->
  notes r = if mismatch r
            then [warn_total_mismatch (calculatedTotal r) (totalPrice r)]
            else [].
Proof.
  intros Herr Hitems. unfold notes. rewrite Herr.
  apply positive_length in Hitems as Hpos. rewrite Hpos.
  destruct (items r) as [|i l]; [now contradiction Hitems|].
  simpl. rewrite !andb_false_r, app_nil_r. reflexivity.
Qed.

(** C5.  With [errorText] absent (or empty) and at least one item, the
    total the validator compares is the sum of price times quantity over
    the items plus the sum of the amounts of the additional costs whose
    flag is true, both taken in order from zero in binary64 arithmetic; the
    validator writes the mismatch warning exactly when the absolute value
    of that total minus [totalPrice] is greater than 0.01, and nothing
    else.  With a subtotal of 10, one flagged cost of 1 and a total of 11
    it writes nothing. *)
Theorem total_mismatch_diagnostic (r : ReceiptAnalysisResult.t)
  (Herr : truthy_opt (errorText r) = false) (Hitems : items r <> []) :
  calculatedTotal r = (itemsSubtotal r + includedExtra r)%js
  /\ (forall c,
        snd (validateBusinessLogic r c)
        = c ++ (if (abs (itemsSubtotal r + includedExtra r - totalPrice r)
                    > num 0.01)%js
                then [warn_total_mismatch (itemsSubtotal r + includedExtra r)%js
                        (totalPrice r)]
                else []))
  /\ (itemsSubtotal r = num 10 ->
      (exists n, additionalCosts r
                 = Some [AdditionalCost.Build n (num 1) true]) ->
      totalPrice r = num 11 ->
      forall c, snd (validateBusinessLogic r c) = c).
Proof.
  assert (Htotal : calculatedTotal r = (itemsSubtotal r + includedExtra r)%js).
  { unfold calculatedTotal.
    now rewrite itemsTotal_subtotal, includedAdditionalCosts_extra. }
  assert (Hnotes : forall c,
             snd (validateBusinessLogic r c)
             = c ++ (if (abs (itemsSubtotal r + includedExtra r - totalPrice r)
                         > num 0.01)%js
                     then [warn_total_mismatch (itemsSubtotal r + includedExtra r)%js
                             (totalPrice r)]
                     else [])).
  { intros c. rewrite validateBusinessLogic_closed_form. simpl.
    rewrite (notes_with_items r Herr Hitems).
    unfold mismatch, tolerance. rewrite Htotal. reflexivity. }
  split; [exact Htotal|]. split; [exact Hnotes|].
  intros Hsub [n Hcosts] Hprice c.
  rewrite Hnotes. unfold includedExtra. rewrite Hcosts, Hsub, Hprice. simpl.
  apply app_nil_r.
Qed.

(** C6.  With [errorText] absent (or empty), at least one item, and rules
    1 to 3 satisfied, the validator returns without throwing whatever the
    total: a mismatch only adds the warning.  With the items 4.50 x 2 and
    8.99 x 1 and no additional cost, a total of 17.99 is accepted with
    nothing written and a total of 20 is accepted with the warning. *)
Theorem mismatch_never_rejects (r : ReceiptAnalysisResult.t)
  (Herr : truthy_opt (errorText r) = false) (Hitems : items r <> [])
  (Hcurrency : rule_currency r) (Hexclusive : rule_exclusive r)
  (Hcosts : rule_costs r) :
  (forall c,
      fst (validateBusinessLogic r c) = Normal tt
      /\ snd (validateBusinessLogic r c)
         = c ++ (if mismatch r
                 then [warn_total_mismatch (calculatedTotal r) (totalPrice r)]
                 else []))
  /\ (lines r = [(num 4.5, num 2); (num 8.99, num 1)] ->
      or_empty (additionalCosts r) = [] ->
      (totalPrice r = num 17.99 -> mismatch r = false)
      /\ (totalPrice r = num 20 -> mismatch r = true)).
Proof.
  split.
  - intros c. rewrite validateBusinessLogic_closed_form. simpl. split.
    + apply verdict_ok.
      split; [now apply bad_currency_false|].
      split; [now apply error_with_items_false|].
      apply first_cost_error_ok. intros cost Hin.
      destruct (Hcosts cost Hin) as [Hge Hname].
      split; [now right | exact Hname].
    + now rewrite (notes_with_items r Herr Hitems).
  - intros Hlines Hnone.
    assert (Htotal : calculatedTotal r
                     = ((num 0 + num 4.5 * num 2 + num 8.99 * num 1) + num 0)%js).
    { unfold calculatedTotal.
      rewrite itemsTotal_subtotal, itemsSubtotal_lines, Hlines.
      unfold includedAdditionalCosts. rewrite Hnone. reflexivity. }
    unfold mismatch. rewrite Htotal.
    split; intros ->; vm_compute; reflexivity.
Qed.

End Reconciliation.

(* ===================================================================== *)
(** * The fallback of processReceiptImage *)
(* ===================================================================== *)

Section Fallback.

Variable model_invoke : list Byte.byte -> completion jsstring.
Variable parser_json : jsstring -> option ReceiptAnalysisResult.t.
Variable parser_exception : jsstring -> thrown.

Let parse := parser_parse parser_json parser_exception.
Let process := processReceiptImage model_invoke parser_json parser_exception.

(** The inner [try]: once the model has answered, the call returns, with the
    parsed result when the validator accepts it and with the safe default
    in every other case. *)
Lemma processReceiptImage_answered (imageBuffer : list Byte.byte)
  (text : jsstring) (c : console) :
  model_invoke imageBuffer = Normal text ->
  fst (process imageBuffer c)
  = Normal match parse text with
           | Normal r => if accepts r then r else safe_default "parsing error"
           | Throw _ => safe_default "parsing error"
           end.
Proof.
  intros Hresp.
  unfold process, processReceiptImage, parse, try_catch, bind, lift, console_log, ret.
  rewrite Hresp.
  destruct (parser_parse parser_json parser_exception text) as [r|e];
    [|reflexivity].
  unfold accepts.
  rewrite !validateBusinessLogic_closed_form. simpl.
  destruct (verdict r) as [[]|e]; reflexivity.
Qed.

(** C7.  When the model has answered and either the parser throws on the
    answer or the validator throws on the parsed result,
    [processReceiptImage] returns (it does not throw) the safe default
    whose [errorText] is "parsing error". *)
Theorem failure_returns_safe_default (imageBuffer : list Byte.byte)
  (text : jsstring)
  (Hresp : model_invoke imageBuffer = Normal text)
  (Hfail : (exists e, parse text = Throw e)
           \/ (exists r, parse text = Normal r /\ accepts r = false)) :
  forall c,
    fst (process imageBuffer c)
    = Normal {| items := [];
                totalPrice := num 0;
                currency := lit "USD";
                currencySymbol := Some (lit "$");
                additionalCosts := Some [];
                errorText := Some (lit "parsing error") |}.
Proof.
  intros c. rewrite (processReceiptImage_answered _ text c Hresp).
  destruct Hfail as [[e ->] | (r & -> & ->)]; reflexivity.
Qed.

End Fallback.

(* ===================================================================== *)
(** * Repeated validation, safe defaults, empty error text *)
(* ===================================================================== *)

Section Repetition.

(** The completion of the validator does not depend on what the console
    holds: once a result has been accepted, every later validation of it,
    from whatever console, accepts it again and writes the same
    diagnostics again. *)
Theorem validation_is_repeatable (r : ReceiptAnalysisResult.t) (c : console)
  (Hacc : fst (validateBusinessLogic r c) = Normal tt) :
  snd (validateBusinessLogic r c) = c ++ diagnostics r
  /\ forall c',
      fst (validateBusinessLogic r c') = Normal tt
      /\ snd (validateBusinessLogic r c') = c' ++ diagnostics r.
Proof.
  rewrite validateBusinessLogic_closed_form in Hacc. simpl in Hacc.
  rewrite diagnostics_notes.
  split; [|intros c']; rewrite validateBusinessLogic_closed_form; simpl; auto.
Qed.

(** C9.  Both safe defaults pass the validator, which writes nothing. *)
Theorem safe_defaults_accepted (c : console) :
  validateBusinessLogic (safe_default "parsing error") c = (Normal tt, c)
  /\ validateBusinessLogic (safe_default "processing error") c = (Normal tt, c).
Proof.
  rewrite !validateBusinessLogic_closed_form.
  split; rewrite <- (app_nil_r c) at 2; reflexivity.
Qed.

Lemma first_cost_error_not_items (costs : list AdditionalCost.t) :
  first_cost_error costs <> Throw items_error.
Proof.
  induction costs as [|cost rest IH]; simpl; [discriminate|].
  destruct (AdditionalCost.amount cost < num 0)%js.
  - intros H. vm_compute in H. discriminate.
  - destruct (negb (truthy (AdditionalCost.name cost))
              || (length (trim (AdditionalCost.name cost)) =? 0)); [|exact IH].
    intros H. vm_compute in H. discriminate.
Qed.

Lemma currency_error_not_items (r : ReceiptAnalysisResult.t) :
  @Throw unit (currency_error r) <> Throw items_error.
Proof. intros H. vm_compute in H. discriminate. Qed.

(** C10, as the code has it.  An empty [errorText] is treated as an
    absent one: the validator completes the same way and writes the same.
    With items, the error about items present alongside an error is not
    thrown and the arithmetic check runs.  Without items, the warning
    about an empty result is written when the currency check passes; the
    currency check comes first, and when it throws nothing is written. *)
Theorem empty_error_text_as_absent (r : ReceiptAnalysisResult.t)
  (Hempty : errorText r = Some (lit "")) :
  (forall c,
      validateBusinessLogic r c = validateBusinessLogic (with_errorText r None) c)
  /\ (items r <> [] ->
      forall c,
        fst (validateBusinessLogic r c) <> Throw items_error
        /\ snd (validateBusinessLogic r c)
           = c ++ (if mismatch r
                   then [warn_total_mismatch (calculatedTotal r) (totalPrice r)]
                   else []))
  /\ (items r = [] ->
      forall c,
        snd (validateBusinessLogic r c)
        = if bad_currency r then c else c ++ [no_items_warning]).
Proof.
  assert (Herr : truthy_opt (errorText r) = false) by now rewrite Hempty.
  split; [|split].
  - intros c. rewrite !validateBusinessLogic_closed_form.
    unfold verdict, notes, error_with_items, bad_currency, mismatch, calculatedTotal,
      itemsTotal, includedAdditionalCosts.
    rewrite Hempty. reflexivity.
  - intros Hitems c. rewrite validateBusinessLogic_closed_form. simpl. split.
    + unfold verdict, error_with_items. rewrite Herr. simpl.
      destruct (bad_currency r).
      * apply currency_error_not_items.
      * apply first_cost_error_not_items.
    + now rewrite (notes_with_items r Herr Hitems).
  - intros Hitems c. rewrite validateBusinessLogic_closed_form. simpl.
    unfold notes, error_with_items. rewrite Herr, Hitems. simpl.
    destruct (bad_currency r); simpl; [apply app_nil_r | reflexivity].
Qed.

(** C10 as stated fails: with an empty [errorText], no items and the
    currency "US", the validator throws on the currency before it reaches
    the warning about an empty result, and writes nothing. *)
Lemma empty_result_warning_skipped :
  errorText empty_text_bad_currency = Some (lit "")
  /\ items empty_text_bad_currency = []
  /\ validateBusinessLogic empty_text_bad_currency []
     = (Throw (currency_error empty_text_bad_currency), [])
  /\ ~ In no_items_warning (snd (validateBusinessLogic empty_text_bad_currency [])).
Proof.
  repeat split. intros H. vm_compute in H. exact H.
Qed.

End Repetition.

(* ===================================================================== *)
(** * The statements at concrete receipts *)
(* ===================================================================== *)

Section Instances.

(** The validator alone lets an empty currency through; it is the schema
    that refuses it. *)
Example empty_currency_passes_validator :
  accepts no_currency_receipt = true
  /\ ReceiptAnalysisResultSchema no_currency_receipt = false.
Proof. split; vm_compute; reflexivity. Qed.

(** A name of three spaces is refused with the error about empty names. *)
Example blank_name_rejected :
  validateBusinessLogic blank_fee_receipt [] = (Throw empty_name_error, []).
Proof. vm_compute. reflexivity. Qed.

(** The comparison is made on binary64 values: one item of 0.07 against a
    total of 0.06 gives a computed difference above the binary64 0.01, and
    the warning is written. *)
Example seven_cents_mismatch :
  mismatch seven_cents_receipt = true
  /\ validateBusinessLogic seven_cents_receipt []
     = (Normal tt,
        [warn_total_mismatch (calculatedTotal seven_cents_receipt) (num 0.06)]).
Proof. split; vm_compute; reflexivity. Qed.

(** A parsed result the validator refuses is replaced by the safe default,
    and the console holds the two timer entries and the warning with the
    exception caught. *)
Example refused_result_replaced :
  processReceiptImage garbage_model blurry_json parse_exception [] []
  = (Normal (safe_default "parsing error"),
     [time llm_timer; timeEnd llm_timer;
      warn_with (lit "Failed to parse receipt data, returning safe default:")
        items_error]).
Proof. vm_compute. reflexivity. Qed.

(** A failure of the model itself reaches the outer [catch]: a message that
    mentions the schema gives the other safe default, any other message is
    thrown on. *)
Example upstream_failures :
  fst (processReceiptImage (failing_model "schema mismatch") no_json
         parse_exception [] [])
  = Normal (safe_default "processing error")
  /\ fst (processReceiptImage (failing_model "timeout") no_json
            parse_exception [] [])
     = Throw (JsError (lit "Failed to process receipt: timeout")).
Proof. split; vm_compute; reflexivity. Qed.

Lemma accepted_iff_rules_at_two_items :
  accepts (receipt two_items None (num 20) "USD" None) = true.
Proof.
  apply (accepted_iff_rules (receipt two_items None (num 20) "USD" None)).
  split; [|split].
  - intros _. reflexivity.
  - intros (t & Ht & _). discriminate Ht.
  - intros cost [].
Defined.

Lemma currency_exactly_three_at_usd :
  admitted (receipt two_items None (num 17.99) "USD" None) = true
  /\ length (currency (receipt two_items None (num 17.99) "USD" None)) = 3.
Proof.
  split; [vm_compute; reflexivity|].
  apply (currency_exactly_three (receipt two_items None (num 17.99) "USD" None)).
  vm_compute. reflexivity.
Defined.

Lemma error_with_items_rejected_at_blurry :
  non_empty_text (errorText blurry_receipt)
  /\ items blurry_receipt <> []
  /\ fst (validateBusinessLogic blurry_receipt []) = Throw items_error.
Proof.
  assert (Herr : non_empty_text (errorText blurry_receipt)).
  { exists (lit "too blurry"). split; [reflexivity | discriminate]. }
  assert (Hitems : items blurry_receipt <> []) by discriminate.
  split; [exact Herr|]. split; [exact Hitems|].
  exact (error_with_items_rejected blurry_receipt Herr Hitems []).
Defined.

Lemma bad_additional_cost_rejected_at_tip :
  In (mk_cost "tip" (num (-1)) false)
    (or_empty (additionalCosts negative_tip_receipt))
  /\ (num (-1) < num 0)%js = true
  /\ exists e, fst (validateBusinessLogic negative_tip_receipt []) = Throw e.
Proof.
  assert (Hin : In (mk_cost "tip" (num (-1)) false)
                  (or_empty (additionalCosts negative_tip_receipt))).
  { left. reflexivity. }
  split; [exact Hin|]. split; [reflexivity|].
  apply (bad_additional_cost_rejected negative_tip_receipt _ Hin).
  left. reflexivity.
Defined.

Lemma total_mismatch_diagnostic_at_ten_plus_one :
  truthy_opt (errorText ten_plus_one_receipt) = false
  /\ items ten_plus_one_receipt <> []
  /\ snd (validateBusinessLogic ten_plus_one_receipt []) = [].
Proof.
  assert (Herr : truthy_opt (errorText ten_plus_one_receipt) = false)
    by reflexivity.
  assert (Hitems : items ten_plus_one_receipt <> []) by discriminate.
  split; [exact Herr|]. split; [exact Hitems|].
  apply (total_mismatch_diagnostic ten_plus_one_receipt Herr Hitems).
  - vm_compute. reflexivity.
  - exists (lit "service"). reflexivity.
  - reflexivity.
Defined.

Lemma mismatch_never_rejects_at_twenty :
  fst (validateBusinessLogic (receipt two_items None (num 20) "USD" None) [])
  = Normal tt
  /\ mismatch (receipt two_items None (num 20) "USD" None) = true.
Proof.
  assert (Hitems : items (receipt two_items None (num 20) "USD" None) <> [])
    by discriminate.
  assert (Hcur : rule_currency (receipt two_items None (num 20) "USD" None)).
  { intros _. reflexivity. }
  assert (Hex : rule_exclusive (receipt two_items None (num 20) "USD" None)).
  { intros (t & Ht & _). discriminate Ht. }
  assert (Hcosts : rule_costs (receipt two_items None (num 20) "USD" None)).
  { intros cost []. }
  destruct (mismatch_never_rejects (receipt two_items None (num 20) "USD" None)
              eq_refl Hitems Hcur Hex Hcosts)
    as [Hrun Hexample].
  split; [apply Hrun|].
  apply Hexample; reflexivity.
Defined.

Lemma failure_returns_safe_default_at_garbage :
  fst (processReceiptImage garbage_model no_json parse_exception [] [])
  = Normal (safe_default "parsing error").
Proof.
  apply (failure_returns_safe_default garbage_model no_json parse_exception
           [] (lit "not valid json{{") eq_refl).
  left. exists (parse_exception (lit "not valid json{{")). reflexivity.
Defined.

Lemma validation_is_repeatable_at_twenty :
  fst (validateBusinessLogic (receipt two_items None (num 20) "USD" None) [])
  = Normal tt
  /\ fst (validateBusinessLogic (receipt two_items None (num 20) "USD" None)
            (diagnostics (receipt two_items None (num 20) "USD" None)))
     = Normal tt.
Proof.
  assert (Hacc : fst (validateBusinessLogic
                        (receipt two_items None (num 20) "USD" None) [])
                 = Normal tt) by (vm_compute; reflexivity).
  split; [exact Hacc|].
  apply (validation_is_repeatable _ [] Hacc).
Defined.

Lemma empty_error_text_as_absent_at_twenty :
  errorText empty_text_receipt = Some (lit "")
  /\ validateBusinessLogic empty_text_receipt []
     = validateBusinessLogic (with_errorText empty_text_receipt None) [].
Proof.
  split; [reflexivity|].
  apply (empty_error_text_as_absent empty_text_receipt eq_refl).
Defined.

End Instances.

(* ===================================================================== *)
(** * Every outcome of processReceiptImage *)
(* ===================================================================== *)

Section Outcomes.

Variable model_invoke : list Byte.byte -> completion jsstring.
Variable parser_json : jsstring -> option ReceiptAnalysisResult.t.
Variable parser_exception : jsstring -> thrown.

Let parse := parser_parse parser_json parser_exception.
Let process := processReceiptImage model_invoke parser_json parser_exception.

(** The outer [catch]: when the call of the model throws, the exception is
    logged, then answered with the second safe default if its message
    mentions parsing, validation or a schema, and thrown on, wrapped,
    otherwise.  The timer started before the call is never stopped. *)
Lemma processReceiptImage_model_failed (imageBuffer : list Byte.byte)
  (e : thrown) (c : console) :
  model_invoke imageBuffer = Throw e ->
  process imageBuffer c
  = if is_parse_error e
    then (Normal (safe_default "processing error"),
          c ++ [time llm_timer;
                error_with (lit "Error processing receipt:") e;
                warn (lit "Failed to parse receipt data, returning safe default")])
    else (Throw (JsError (lit "Failed to process receipt: " ++ failure_message e)),
          c ++ [time llm_timer;
                error_with (lit "Error processing receipt:") e]).
Proof.
  intros Hfail.
  unfold process, processReceiptImage, try_catch, bind, lift, console_log, ret, throw.
  rewrite Hfail.
  destruct (is_parse_error e); rewrite <- !app_assoc; reflexivity.
Qed.

(** X1.  [processReceiptImage] throws exactly when the call of the model
    threw something whose message mentions neither parsing nor validation
    nor a schema (or that is not an [Error] at all), and what it throws is
    an [Error] whose message is "Failed to process receipt: " followed by
    the message of the cause ("Unknown error" for a cause that is not an
    [Error]).  No failure of the parser or of the validator is thrown. *)
Theorem processReceiptImage_throws_iff (imageBuffer : list Byte.byte)
  (c : console) (e : thrown) :
  fst (process imageBuffer c) = Throw e
  <-> exists cause,
        model_invoke imageBuffer = Throw cause
        /\ is_parse_error cause = false
        /\ e = JsError (lit "Failed to process receipt: " ++ failure_message cause).
Proof.
  destruct (model_invoke imageBuffer) as [text|cause] eqn:Hmodel.
  - unfold process.
    rewrite (processReceiptImage_answered _ _ _ _ text c Hmodel). split.
    + discriminate.
    + intros (cause & Hcause & _). discriminate.
  - rewrite (processReceiptImage_model_failed _ cause c Hmodel).
    destruct (is_parse_error cause) eqn:Hparse; simpl; split.
    + discriminate.
    + intros (x & Hx & Hfalse & _). injection Hx as <-. congruence.
    + intros H. injection H as <-. exists cause. auto.
    + intros (x & Hx & _ & ->). injection Hx as <-. reflexivity.
Qed.

Lemma safe_default_admitted (text : string) :
  admitted (safe_default text) = true.
Proof.
  unfold admitted, accepts. rewrite validateBusinessLogic_closed_form.
  unfold verdict, error_with_items, safe_default. simpl.
  rewrite andb_false_r. reflexivity.
Qed.

Lemma parsed_is_schema_valid (text : jsstring) (r : ReceiptAnalysisResult.t) :
  parse text = Normal r -> ReceiptAnalysisResultSchema r = true.
Proof.
  unfold parse, parser_parse.
  destruct (parser_json text) as [r0|]; [|discriminate].
  destruct (ReceiptAnalysisResultSchema r0) eqn:E; [|discriminate].
  intros H. injection H as <-. exact E.
Qed.

Lemma admitted_currency_length (r : ReceiptAnalysisResult.t) :
  admitted r = true -> length (currency r) = 3.
Proof.
  unfold admitted. intros H. apply andb_true_iff in H as [Hschema Hacc].
  apply accepts_checks in Hacc as (Hcur & _).
  apply bad_currency_false in Hcur. apply Hcur. intros Hnil.
  unfold ReceiptAnalysisResultSchema in Hschema.
  apply andb_true_iff in Hschema as [_ Hmin].
  rewrite Hnil in Hmin. discriminate.
Qed.

(** X2.  Whatever the model answers and whatever the parser makes of it,
    a value that [processReceiptImage] returns passes the schema and the
    validator: its currency has exactly three code units, a non-empty
    [errorText] comes with no items, and every additional cost has an
    amount [>= 0] and a name that is not blank. *)
Theorem returned_result_is_admitted (imageBuffer : list Byte.byte)
  (c : console) (r : ReceiptAnalysisResult.t)
  (Hret : fst (process imageBuffer c) = Normal r) :
  admitted r = true
  /\ length (currency r) = 3
  /\ rule_exclusive r
  /\ rule_costs r.
Proof.
  assert (Hadm : admitted r = true).
  { destruct (model_invoke imageBuffer) as [text|cause] eqn:Hmodel.
    - unfold process in Hret.
      rewrite (processReceiptImage_answered _ _ _ _ text c Hmodel) in Hret.
      fold parse in Hret.
      destruct (parse text) as [r0|e] eqn:Hparse.
      + destruct (accepts r0) eqn:Hacc.
        * injection Hret as <-. unfold admitted.
          now rewrite (parsed_is_schema_valid text r0 Hparse), Hacc.
        * injection Hret as <-. apply safe_default_admitted.
      + injection Hret as <-. apply safe_default_admitted.
    - rewrite (processReceiptImage_model_failed _ cause c Hmodel) in Hret.
      destruct (is_parse_error cause); simpl in Hret; [|discriminate].
      injection Hret as <-. apply safe_default_admitted. }
  split; [exact Hadm|].
  split; [now apply admitted_currency_length|].
  now apply admitted_satisfies_rules.
Qed.

End Outcomes.

(* ===================================================================== *)
(** * The validator after the schema *)
(* ===================================================================== *)

Section AfterSchema.

Lemma schema_costs (r : ReceiptAnalysisResult.t) :
  ReceiptAnalysisResultSchema r = true ->
  forallb AdditionalCostSchema (or_empty (additionalCosts r)) = true.
Proof.
  unfold ReceiptAnalysisResultSchema. intros H.
  repeat (apply andb_true_iff in H as [H ?]).
  destruct (additionalCosts r) as [costs|]; simpl in *; [assumption | reflexivity].
Qed.

(** On schema-valid costs the loop of the validator can only end normally
    or with the error about an empty name. *)
Lemma first_cost_error_after_schema (costs : list AdditionalCost.t) :
  forallb AdditionalCostSchema costs = true ->
  first_cost_error costs
  = if forallb (fun cost => negb (length (trim (AdditionalCost.name cost)) =? 0))
         costs
    then Normal tt else Throw empty_name_error.
Proof.
  induction costs as [|cost rest IH]; simpl; [reflexivity|].
  intros H. apply andb_true_iff in H as [Hcost Hrest].
  unfold AdditionalCostSchema, Zod.string_min, Zod.nonnegative in Hcost.
  apply andb_true_iff in Hcost as [Hname Hamount].
  apply andb_true_iff in Hamount as [_ Hnonneg].
  apply negb_true_iff in Hnonneg. rewrite Hnonneg.
  destruct (AdditionalCost.name cost) as [|ch s] eqn:En; [discriminate|].
  cbn [truthy negb orb].
  destruct (length (trim (ch :: s)) =? 0); simpl; [reflexivity|].
  now apply IH.
Qed.

Lemma negative_amount_error_distinct (r : ReceiptAnalysisResult.t)
  (cost : AdditionalCost.t) :
  currency_error r <> negative_amount_error cost
  /\ items_error <> negative_amount_error cost
  /\ empty_name_error <> negative_amount_error cost.
Proof.
  repeat split; intros H; vm_compute in H; discriminate.
Qed.

(** X3.  On a result that has passed the schema, the validator never throws
    the error about a negative amount, and it accepts exactly when the
    currency has three code units, a non-empty [errorText] comes with no
    items, and no additional cost has a name that trims to nothing: the
    schema has already refused negative amounts and empty names, so of the
    validator's tests on additional costs only the one on names made of
    white space can fail. *)
Theorem validator_after_schema (r : ReceiptAnalysisResult.t)
  (Hschema : ReceiptAnalysisResultSchema r = true) :
  (forall c cost,
      fst (validateBusinessLogic r c) <> Throw (negative_amount_error cost))
  /\ (accepts r = true
      <-> length (currency r) = 3
          /\ rule_exclusive r
          /\ forall cost, In cost (or_empty (additionalCosts r)) ->
                          trim (AdditionalCost.name cost) <> []).
Proof.
  pose proof (first_cost_error_after_schema _ (schema_costs r Hschema)) as Hloop.
  split.
  - intros c cost. rewrite validateBusinessLogic_closed_form. simpl.
    destruct (negative_amount_error_distinct r cost) as (Hc & Hi & He).
    unfold verdict.
    destruct (bad_currency r); [congruence|].
    destruct (error_with_items r); [congruence|].
    rewrite Hloop.
    destruct (forallb _ _); [discriminate | congruence].
  - rewrite accepts_checks, Hloop, error_with_items_false.
    assert (Hcur : bad_currency r = false <-> length (currency r) = 3).
    { rewrite bad_currency_false. unfold rule_currency. split; [|auto].
      intros H. apply H. intros Hnil.
      unfold ReceiptAnalysisResultSchema in Hschema.
      apply andb_true_iff in Hschema as [_ Hmin].
      rewrite Hnil in Hmin. discriminate. }
    rewrite Hcur.
    assert (Hnames :
              forallb (fun cost => negb (length (trim (AdditionalCost.name cost)) =? 0))
                (or_empty (additionalCosts r)) = true
              <-> forall cost, In cost (or_empty (additionalCosts r)) ->
                               trim (AdditionalCost.name cost) <> []).
    { rewrite forallb_forall. split; intros H cost Hin; specialize (H cost Hin).
      - intros Hnil. rewrite Hnil in H. discriminate.
      - apply negb_true_iff. destruct (trim (AdditionalCost.name cost)); [|reflexivity].
        now contradiction H. }
    rewrite <- Hnames.
    destruct (forallb _ _); intuition discriminate.
Qed.

End AfterSchema.

(* ===================================================================== *)
(** * The earlier processor and its validator *)
(* ===================================================================== *)

Section LegacyFacts.

Variable structured_invoke : list Byte.byte -> completion ReceiptAnalysisResult.t.

Lemma legacy_validate_closed_form (r : ReceiptAnalysisResult.t) (c : console) :
  Legacy.validateBusinessLogic r c = (Legacy.verdict r, c ++ Legacy.notes r).
Proof.
  unfold Legacy.validateBusinessLogic, Legacy.verdict, Legacy.notes, bind, when,
    throw, ret, console_log, bad_currency, error_with_items.
  destruct (truthy_opt (errorText r)) eqn:Herr;
    destruct (0 <? length (items r)) eqn:Hpos;
    destruct (length (items r) =? 0) eqn:Hzero;
    destruct (truthy (currency r) && negb (length (currency r) =? 3)) eqn:Hcur;
    simpl;
    try destruct ((abs (itemsTotal r - totalPrice r) > tolerance)%js);
    simpl; rewrite ?app_nil_r, <- ?app_assoc; reflexivity.
Qed.

Lemma legacy_accepts_verdict (r : ReceiptAnalysisResult.t) :
  Legacy.accepts r = true
  <-> bad_currency r = false /\ error_with_items r = false.
Proof.
  unfold Legacy.accepts. rewrite legacy_validate_closed_form. simpl.
  unfold Legacy.verdict.
  destruct (bad_currency r); [intuition discriminate|].
  destruct (error_with_items r); intuition discriminate.
Qed.

Lemma legacy_rejected_verdict (r : ReceiptAnalysisResult.t) :
  Legacy.accepts r = false -> Legacy.verdict r = Throw (Legacy.rejection r).
Proof.
  unfold Legacy.accepts. rewrite legacy_validate_closed_form. simpl.
  unfold Legacy.verdict, Legacy.rejection.
  destruct (bad_currency r); [reflexivity|].
  destruct (error_with_items r); [reflexivity | discriminate].
Qed.

(** X4.  In the earlier processor a result the validator refuses is not
    replaced by the safe default: the exception of the validator reaches
    the outer [catch], which throws it on, wrapped, unless its message
    happens to mention parsing, validation or a schema.  For a result with
    a well-formed currency, a non-empty [errorText] and items, the call
    always throws. *)
Theorem legacy_rejection_reaches_caller (imageBuffer : list Byte.byte)
  (r : ReceiptAnalysisResult.t)
  (Hresp : structured_invoke imageBuffer = Normal r)
  (Hrej : Legacy.accepts r = false) :
  forall c,
    fst (Legacy.processReceiptImage structured_invoke imageBuffer c)
    = (if is_parse_error (Legacy.rejection r)
       then Normal Legacy.safe_default
       else Throw (JsError (lit "Failed to process receipt: "
                              ++ failure_message (Legacy.rejection r))))
    /\ (bad_currency r = false ->
        fst (Legacy.processReceiptImage structured_invoke imageBuffer c)
        = Throw (JsError (lit "Failed to process receipt: Images with errors should have empty items array"))).
Proof.
  intros c.
  assert (Hrun : fst (Legacy.processReceiptImage structured_invoke imageBuffer c)
                 = if is_parse_error (Legacy.rejection r)
                   then Normal Legacy.safe_default
                   else Throw (JsError (lit "Failed to process receipt: "
                                          ++ failure_message (Legacy.rejection r)))).
  { unfold Legacy.processReceiptImage, try_catch, bind, lift, console_log, ret, throw.
    rewrite Hresp, legacy_validate_closed_form, (legacy_rejected_verdict r Hrej).
    destruct (is_parse_error (Legacy.rejection r)); reflexivity. }
  split; [exact Hrun|].
  intros Hcur. rewrite Hrun. unfold Legacy.rejection. rewrite Hcur.
  reflexivity.
Qed.

(** X5.  The validator refuses whatever the earlier validator refused: it
    accepts a result exactly when the earlier one accepts it and no
    additional cost has an amount below zero or a blank name.  The earlier
    validator accepts exactly on rules 1 and 2. *)
Theorem validator_extends_legacy (r : ReceiptAnalysisResult.t) :
  (Legacy.accepts r = true <-> rule_currency r /\ rule_exclusive r)
  /\ (accepts r = true
      <-> Legacy.accepts r = true /\ rule_costs_not_below_zero r).
Proof.
  rewrite accepts_checks, legacy_accepts_verdict, bad_currency_false,
    error_with_items_false, first_cost_error_ok.
  unfold rule_costs_not_below_zero. tauto.
Qed.

End LegacyFacts.

(** In the earlier processor a malformed currency that itself contains the
    word "schema" is answered with the safe default, not thrown. *)
Example legacy_currency_named_schema :
  fst (Legacy.processReceiptImage
         (fun _ => Normal (receipt two_items None (num 17.99) "schema" None))
         [] [])
  = Normal Legacy.safe_default.
Proof. vm_compute. reflexivity. Qed.

(* ===================================================================== *)
(** * The route POST /api/receipt/process *)
(* ===================================================================== *)

Section HttpFacts.

Variable sharp : list Byte.byte -> completion (list Byte.byte).
Variable model_invoke : list Byte.byte -> completion jsstring.
Variable parser_json : jsstring -> option ReceiptAnalysisResult.t.
Variable parser_exception : jsstring -> thrown.

Let route := post_receipt sharp model_invoke parser_json parser_exception.
Let response := route_response sharp model_invoke parser_json parser_exception.

Lemma processImage_run (file : option File.t) (c : console) :
  processImage sharp file c
  = match file with
    | None =>
        (Normal (Respond (failure 400 (lit "MISSING_FILE")
                            (lit "No image file provided"))), c)
    | Some f =>
        match sharp (File.buffer f) with
        | Normal processed =>
            (Normal (Next (Some {| File.buffer := processed;
                                   File.mimetype := lit "image/jpeg" |})), c)
        | Throw e =>
            (Normal (Respond (failure 500 (lit "IMAGE_PROCESSING_ERROR")
                                (lit "Failed to process the uploaded image"))),
             c ++ [error_with (lit "Error processing image:") e])
        end
    end.
Proof.
  unfold processImage, try_catch, bind, lift, ret, console_log.
  destruct file as [f|]; [|reflexivity].
  destruct (sharp (File.buffer f)); reflexivity.
Qed.

(** X6.  [processImage] never throws.  It calls [next] exactly when a file
    was uploaded and sharp produced a buffer, and the file it passes on has
    that buffer and the type "image/jpeg", whatever type was uploaded.
    Without a file it answers 400 [MISSING_FILE]; when sharp throws it
    answers 500 [IMAGE_PROCESSING_ERROR]. *)
Theorem processImage_outcomes (file : option File.t) (c : console) :
  exists s,
    fst (processImage sharp file c) = Normal s
    /\ (forall file', s = Next file' ->
          exists f processed,
            file = Some f /\ sharp (File.buffer f) = Normal processed
            /\ file' = Some {| File.buffer := processed;
                               File.mimetype := lit "image/jpeg" |})
    /\ (forall r, s = Respond r ->
          (file = None
           /\ r = failure 400 (lit "MISSING_FILE") (lit "No image file provided"))
          \/ (exists f e,
                file = Some f /\ sharp (File.buffer f) = Throw e
                /\ r = failure 500 (lit "IMAGE_PROCESSING_ERROR")
                         (lit "Failed to process the uploaded image"))).
Proof.
  rewrite processImage_run.
  destruct file as [f|].
  - destruct (sharp (File.buffer f)) as [processed|e] eqn:Hsharp;
      eexists; (split; [reflexivity|]); split.
    + intros file' H. injection H as <-. now exists f, processed.
    + discriminate.
    + discriminate.
    + intros r H. injection H as <-. right. now exists f, e.
  - eexists. split; [reflexivity|]. split.
    + discriminate.
    + intros r H. injection H as <-. now left.
Qed.

Lemma process_route_response (f : File.t) (c : console) :
  fst (process_route model_invoke parser_json parser_exception (Some f) c)
  = Normal
      match model_invoke (File.buffer f) with
      | Normal text => succeeded (parsed_or_default parser_json parser_exception text)
      | Throw cause =>
          if is_parse_error cause
          then succeeded (safe_default "processing error")
          else failure 500 (lit "PROCESSING_ERROR")
                 (lit "Failed to process receipt: " ++ failure_message cause)
      end.
Proof.
  unfold process_route, try_catch, bind, ret, console_log.
  destruct (model_invoke (File.buffer f)) as [text|cause] eqn:Hmodel.
  - pose proof (processReceiptImage_answered model_invoke parser_json
                  parser_exception (File.buffer f) text c Hmodel) as H.
    destruct (processReceiptImage model_invoke parser_json parser_exception
                (File.buffer f) c) as [[r|e] c'];
      simpl in H; [|discriminate].
    injection H as ->. reflexivity.
  - rewrite (processReceiptImage_model_failed model_invoke parser_json
               parser_exception (File.buffer f) cause c Hmodel).
    destruct (is_parse_error cause); reflexivity.
Qed.

(** The response of the route, whatever the console holds. *)
Lemma post_receipt_response (uploaded : completion (option File.t)) (c : console) :
  fst (route uploaded c) = Normal (response uploaded).
Proof.
  unfold route, response, post_receipt, route_response.
  destruct uploaded as [[f|]|e]; [| |reflexivity].
  - unfold bind at 1. rewrite processImage_run.
    destruct (sharp (File.buffer f)) as [processed|e]; [|reflexivity].
    apply (process_route_response
             {| File.buffer := processed; File.mimetype := lit "image/jpeg" |}).
  - unfold bind. rewrite processImage_run. reflexivity.
Qed.

Lemma parsed_or_default_admitted (text : jsstring) :
  admitted (parsed_or_default parser_json parser_exception text) = true.
Proof.
  unfold parsed_or_default.
  destruct (parser_parse parser_json parser_exception text) as [r|e] eqn:Hparse;
    [|apply safe_default_admitted].
  destruct (accepts r) eqn:Hacc; [|apply safe_default_admitted].
  unfold admitted.
  now rewrite (parsed_is_schema_valid parser_json parser_exception text r Hparse), Hacc.
Qed.

(** X7.  The route always answers, it never throws, and what it sends is
    the uniform envelope: either status 200 with [success: true], no error
    and data that passes the schema and the validator, or [success: false]
    with no data and one of the four error codes, [MISSING_FILE] with
    status 400 and the three others with status 500.  The body passes
    [ReceiptProcessingResponseSchema]. *)
Theorem post_receipt_envelope (uploaded : completion (option File.t))
  (c : console) :
  exists r,
    fst (route uploaded c) = Normal r
    /\ well_formed_response r
    /\ ReceiptProcessingResponseSchema (Response.body r) = true.
Proof.
  exists (response uploaded). split; [apply post_receipt_response|].
  unfold response, route_response.
  destruct uploaded as [[f|]|e].
  - destruct (sharp (File.buffer f)) as [processed|e].
    + destruct (model_invoke processed) as [text|cause].
      * pose proof (parsed_or_default_admitted text) as Hadm.
        split; [simpl; repeat split; exact Hadm|].
        unfold ReceiptProcessingResponseSchema, succeeded.
        cbn [Response.body ReceiptProcessingResponse.data Zod.optional].
        unfold admitted in Hadm. apply andb_true_iff in Hadm as [Hschema _].
        exact Hschema.
      * destruct (is_parse_error cause).
        -- split; [simpl; repeat split; apply safe_default_admitted|].
           reflexivity.
        -- split; [|reflexivity]. simpl. split; [reflexivity|]. right.
           split; [reflexivity|]. left. reflexivity.
    + split; [|reflexivity]. simpl. split; [reflexivity|]. right.
      split; [reflexivity|]. right. left. reflexivity.
  - split; [|reflexivity]. simpl. split; [reflexivity|]. now left.
  - split; [|reflexivity]. simpl. split; [reflexivity|]. right.
    split; [reflexivity|]. right. right. left. reflexivity.
Qed.

(** X8.  Once a file has been uploaded and sharp has re-encoded it, the
    model is called on the re-encoded buffer, never on the uploaded one,
    and the answer is 200 with [success: true] whatever text the model
    returns: the parsed result when the validator accepts it, the safe
    default otherwise.  The answer is 500 [PROCESSING_ERROR] only when the
    call of the model throws something that does not look like a parse
    error, and the message sent is the wrapped message of the cause. *)
Theorem post_receipt_processed (f : File.t) (processed : list Byte.byte)
  (Hsharp : sharp (File.buffer f) = Normal processed) :
  forall c,
    fst (route (Normal (Some f)) c)
    = Normal
        match model_invoke processed with
        | Normal text =>
            succeeded (parsed_or_default parser_json parser_exception text)
        | Throw cause =>
            if is_parse_error cause
            then succeeded (safe_default "processing error")
            else failure 500 (lit "PROCESSING_ERROR")
                   (lit "Failed to process receipt: " ++ failure_message cause)
        end.
Proof.
  intros c. rewrite post_receipt_response.
  unfold response, route_response. rewrite Hsharp. reflexivity.
Qed.

(** X9.  The handler's own answer to a missing file is never sent by the
    route, because [processImage] answers first: an answer with the code
    [MISSING_FILE] always carries the message "No image file provided" and
    is sent exactly when the upload left no file, and no answer of the
    route carries the handler's longer message. *)
Theorem missing_file_answered_by_processImage
  (uploaded : completion (option File.t)) (c : console)
  (r : Response.t) (e : ReceiptProcessingError.t)
  (Hsent : fst (route uploaded c) = Normal r)
  (Herror : ReceiptProcessingResponse.error (Response.body r) = Some e) :
  ReceiptProcessingError.message e <> missing_file_message
  /\ (ReceiptProcessingError.error e = lit "MISSING_FILE"
      <-> uploaded = Normal None)
  /\ (uploaded = Normal None ->
      r = failure 400 (lit "MISSING_FILE") (lit "No image file provided")).
Proof.
  rewrite post_receipt_response in Hsent. injection Hsent as <-.
  unfold response, route_response in *.
  destruct uploaded as [[f|]|x].
  - destruct (sharp (File.buffer f)) as [processed|x].
    + destruct (model_invoke processed) as [text|cause]; [discriminate|].
      destruct (is_parse_error cause); [discriminate|].
      injection Herror as <-. simpl.
      split; [intros H; vm_compute in H; discriminate|].
      split; [|discriminate].
      split; intros H; [vm_compute in H|]; discriminate.
    + injection Herror as <-. simpl.
      split; [intros H; vm_compute in H; discriminate|].
      split; [|discriminate].
      split; intros H; [vm_compute in H|]; discriminate.
  - injection Herror as <-. simpl.
    split; [intros H; vm_compute in H; discriminate|].
    split; [|reflexivity]. split; reflexivity.
  - injection Herror as <-. simpl.
    split; [intros H; vm_compute in H; discriminate|].
    split; [|discriminate].
    split; intros H; [vm_compute in H|]; discriminate.
Qed.

End HttpFacts.

(* ===================================================================== *)
(** * The file filter *)
(* ===================================================================== *)

Section FileFilter.

Lemma string_eqb_eq (a b : jsstring) : string_eqb a b = true <-> a = b.
Proof.
  revert b. induction a as [|x a IH]; intros [|y b]; simpl;
    try (split; [discriminate | discriminate]); [tauto|].
  rewrite andb_true_iff, N.eqb_eq, IH. split.
  - intros [-> ->]. reflexivity.
  - intros H. injection H as -> ->. auto.
Qed.

Lemma array_includes_In (l : list jsstring) (x : jsstring) :
  array_includes l x = true <-> In x l.
Proof.
  unfold array_includes. rewrite existsb_exists. split.
  - intros (y & Hin & Heq). apply string_eqb_eq in Heq. now subst.
  - intros Hin. exists x. split; [exact Hin | now apply string_eqb_eq].
Qed.

(** X10.  The file filter never asks multer to skip a file silently: it
    either accepts or passes the error "Only image files are allowed".  It
    accepts a file only when its declared type is, code unit for code
    unit, one of the seven listed types, all of which start with "image/";
    nothing of the content of the file is looked at. *)
Theorem fileFilter_outcomes (file : File.t) :
  (fileFilter file = Normal true
   \/ fileFilter file = Throw (JsError (lit "Only image files are allowed")))
  /\ (fileFilter file = Normal true <-> In (File.mimetype file) allowedMimeTypes)
  /\ (fileFilter file = Normal true ->
      starts_with (lit "image/") (File.mimetype file) = true)
  /\ (forall other,
        File.mimetype other = File.mimetype file ->
        fileFilter other = fileFilter file).
Proof.
  unfold fileFilter.
  destruct (array_includes allowedMimeTypes (File.mimetype file)) eqn:E.
  - apply array_includes_In in E as Hin.
    split; [now left|]. split; [tauto|]. split.
    + intros _. unfold allowedMimeTypes in Hin. simpl in Hin.
      repeat (destruct Hin as [<-|Hin]; [reflexivity|]). contradiction.
    + intros other ->. now rewrite E.
  - split; [now right|]. split.
    + split; [discriminate|]. intros Hin.
      apply array_includes_In in Hin. congruence.
    + split; [discriminate|]. intros other ->. now rewrite E.
Qed.

End FileFilter.

(* ===================================================================== *)
(** * Loading the configuration *)
(* ===================================================================== *)

Section ConfigFacts.

Variable Number : jsstring -> number.

Lemma coerce_number_default_none (d : number) (v : option jsstring) :
  coerce_number_default Number d v = None <-> bad_number Number v.
Proof.
  unfold coerce_number_default, bad_number. destruct v as [s|].
  - destruct (isNaN (Number s)) eqn:E; split.
    + intros _. now exists s.
    + reflexivity.
    + discriminate.
    + intros (s' & Hs & Hnan). injection Hs as <-. congruence.
  - split; [discriminate|]. intros (s & Hs & _). discriminate.
Qed.

Lemma enum_default_none (values : list jsstring) (d : jsstring)
  (v : option jsstring) :
  enum_default values d v = None <-> bad_choice values v.
Proof.
  unfold enum_default, bad_choice. destruct v as [s|].
  - destruct (array_includes values s) eqn:E; split.
    + discriminate.
    + intros (s' & Hs & Hnot). injection Hs as <-.
      apply array_includes_In in E. contradiction.
    + intros _. exists s. split; [reflexivity|].
      intros Hin. apply array_includes_In in Hin. congruence.
    + reflexivity.
  - split; [discriminate|]. intros (s & Hs & _). discriminate.
Qed.

Lemma string_required_none (v : option jsstring) :
  string_required (nullish v (lit "placeholder")) = None <-> v = Some [].
Proof.
  unfold string_required, Zod.string_min.
  destruct v as [[|ch s]|]; simpl; split; intros H;
    try reflexivity; discriminate.
Qed.

Lemma ConfigSchema_parse_none (env : Env.t) :
  ConfigSchema_parse Number env = None <-> some_bad_value Number env.
Proof.
  unfold some_bad_value.
  rewrite <- !coerce_number_default_none
    with (d := num 3000) (v := Env.PORT env).
  rewrite <- (coerce_number_default_none (num 5 * num 1024 * num 1024)%js
                (Env.MAX_FILE_SIZE env)).
  rewrite <- (coerce_number_default_none (num 15 * num 60 * num 1000)%js
                (Env.RATE_LIMIT_WINDOW_MS env)).
  rewrite <- (coerce_number_default_none (num 10)
                (Env.RATE_LIMIT_MAX_REQUESTS env)).
  rewrite <- (coerce_number_default_none (num 30000)
                (Env.RECEIPT_PROCESSING_TIMEOUT env)).
  rewrite <- (coerce_number_default_none (num 3)
                (Env.RECEIPT_PROCESSING_RETRIES env)).
  rewrite <- (enum_default_none node_envs (lit "development") (Env.NODE_ENV env)).
  rewrite <- (enum_default_none log_levels (lit "info") (Env.LOG_LEVEL env)).
  rewrite <- (string_required_none (Env.GEMINI_API_KEY env)).
  rewrite <- (string_required_none (Env.OPEN_AI_API_KEY env)).
  unfold ConfigSchema_parse, f_port, f_nodeEnv, f_provider, f_geminiApiKey,
    f_openAiApiKey, f_logLevel, f_maxFileSize, f_allowedImageTypes, f_corsOrigin,
    f_rateLimitWindowMs, f_rateLimitMaxRequests, f_receiptProcessingTimeout,
    f_receiptProcessingRetries, string_default.
  destruct (coerce_number_default Number (num 3000) (Env.PORT env));
    [|simpl; tauto].
  destruct (enum_default node_envs (lit "development") (Env.NODE_ENV env));
    [|simpl; tauto].
  destruct (string_required (nullish (Env.GEMINI_API_KEY env) (lit "placeholder")));
    [|simpl; tauto].
  destruct (string_required (nullish (Env.OPEN_AI_API_KEY env) (lit "placeholder")));
    [|simpl; tauto].
  destruct (enum_default log_levels (lit "info") (Env.LOG_LEVEL env));
    [|simpl; tauto].
  destruct (coerce_number_default Number (num 5 * num 1024 * num 1024)%js
              (Env.MAX_FILE_SIZE env)); [|simpl; tauto].
  destruct (coerce_number_default Number (num 15 * num 60 * num 1000)%js
              (Env.RATE_LIMIT_WINDOW_MS env)); [|simpl; tauto].
  destruct (coerce_number_default Number (num 10)
              (Env.RATE_LIMIT_MAX_REQUESTS env)); [|simpl; tauto].
  destruct (coerce_number_default Number (num 30000)
              (Env.RECEIPT_PROCESSING_TIMEOUT env)); [|simpl; tauto].
  destruct (coerce_number_default Number (num 3)
              (Env.RECEIPT_PROCESSING_RETRIES env)); [|simpl; tauto].
  simpl. split; [discriminate|]. intuition discriminate.
Qed.

Lemma config_loaded_keys (env : Env.t) (cfg : Config.t) :
  config Number env = Loaded cfg ->
  (Env.GEMINI_API_KEY env = None -> Config.geminiApiKey cfg = lit "placeholder")
  /\ (Env.OPEN_AI_API_KEY env = None ->
      Config.openAiApiKey cfg = lit "placeholder").
Proof.
  unfold config, ConfigSchema_parse.
  destruct (f_port Number env); [|discriminate].
  destruct (f_nodeEnv env); [|discriminate].
  cbn [obind f_provider enum_default].
  destruct (f_geminiApiKey env) as [gemini|] eqn:Hgemini; [|discriminate].
  destruct (f_openAiApiKey env) as [openai|] eqn:Hopenai; [|discriminate].
  destruct (f_logLevel env); [|discriminate].
  destruct (f_maxFileSize Number env); [|discriminate].
  destruct (f_allowedImageTypes env); [|discriminate].
  destruct (f_corsOrigin env); [|discriminate].
  destruct (f_rateLimitWindowMs Number env); [|discriminate].
  destruct (f_rateLimitMaxRequests Number env); [|discriminate].
  destruct (f_receiptProcessingTimeout Number env); [|discriminate].
  destruct (f_receiptProcessingRetries Number env); [|discriminate].
  cbn [obind]. intros H. injection H as <-.
  cbn [Config.geminiApiKey Config.openAiApiKey].
  unfold f_geminiApiKey in Hgemini. unfold f_openAiApiKey in Hopenai.
  split; intros Hunset.
  - rewrite Hunset in Hgemini. injection Hgemini as <-. reflexivity.
  - rewrite Hunset in Hopenai. injection Hopenai as <-. reflexivity.
Qed.

Lemma issue_nil {A : Type} (path : string) (v : option A) :
  issue path v = [] -> v <> None.
Proof. destruct v; [discriminate|]. intros H. vm_compute in H. discriminate. Qed.

(** X11.  Loading the configuration ends the process, with code 1 and at
    least one path printed, exactly when some variable is set to a value
    its field refuses: a numeric variable whose [Number] is NaN,
    [NODE_ENV] or [LOG_LEVEL] outside its list, or an API key set to the
    empty string.  A variable that is not set never ends the process: an
    absent API key is replaced by "placeholder", which passes the test
    whose message says the key is required. *)
Theorem config_exits_only_on_bad_value (env : Env.t) :
  ((exists code paths, config Number env = Exited code paths)
   <-> some_bad_value Number env)
  /\ (forall code paths,
        config Number env = Exited code paths -> code = 1 /\ paths <> [])
  /\ (forall cfg,
        config Number env = Loaded cfg ->
        (Env.GEMINI_API_KEY env = None ->
         Config.geminiApiKey cfg = lit "placeholder")
        /\ (Env.OPEN_AI_API_KEY env = None ->
            Config.openAiApiKey cfg = lit "placeholder")).
Proof.
  split; [|split; [|intros cfg; apply config_loaded_keys]]; unfold config.
  - rewrite <- ConfigSchema_parse_none.
    destruct (ConfigSchema_parse Number env); split.
    + intros (code & paths & H). discriminate.
    + discriminate.
    + reflexivity.
    + intros _. eexists. eexists. reflexivity.
  - intros code paths H.
    destruct (ConfigSchema_parse Number env) as [cfg|] eqn:Hparse;
      [discriminate|].
    injection H as <- <-. split; [reflexivity|].
    intros Hnil. unfold ConfigSchema_issues in Hnil.
    repeat match type of Hnil with
           | _ ++ _ = [] => apply app_eq_nil in Hnil as [? Hnil]
           end.
    repeat match goal with
           | Hi : issue _ _ = [] |- _ => apply issue_nil in Hi
           end.
    revert Hparse. unfold ConfigSchema_parse.
    repeat match goal with
           | Hi : ?v <> None |- context [obind ?v _] =>
               destruct v; [clear Hi; cbn [obind] | now contradiction Hi]
           end.
    discriminate.
Qed.

Lemma config_loaded_fields (env : Env.t) (cfg : Config.t) :
  config Number env = Loaded cfg ->
  f_nodeEnv env = Some (Config.nodeEnv cfg)
  /\ Config.provider cfg = lit "google"
  /\ f_geminiApiKey env = Some (Config.geminiApiKey cfg).
Proof.
  unfold config, ConfigSchema_parse.
  destruct (f_port Number env); [|discriminate].
  destruct (f_nodeEnv env); [|discriminate].
  cbn [obind f_provider enum_default].
  destruct (f_geminiApiKey env); [|discriminate].
  destruct (f_openAiApiKey env); [|discriminate].
  destruct (f_logLevel env); [|discriminate].
  destruct (f_maxFileSize Number env); [|discriminate].
  destruct (f_allowedImageTypes env); [|discriminate].
  destruct (f_corsOrigin env); [|discriminate].
  destruct (f_rateLimitWindowMs Number env); [|discriminate].
  destruct (f_rateLimitMaxRequests Number env); [|discriminate].
  destruct (f_receiptProcessingTimeout Number env); [|discriminate].
  destruct (f_receiptProcessingRetries Number env); [|discriminate].
  cbn [obind]. intros H. injection H as <-. auto.
Qed.

(** X12.  Whatever the environment holds, a configuration that loads has
    the provider "google", because the object handed to the schema has no
    [provider] and the default applies.  The processor built from
    [llmConfig] is therefore always the Gemini client, never the OpenAI
    one, and its key is [GEMINI_API_KEY], or "placeholder" when that
    variable is not set. *)
Theorem provider_is_always_google (env : Env.t) (cfg : Config.t)
  (Hloaded : config Number env = Loaded cfg) :
  Config.provider cfg = lit "google"
  /\ ReceiptProcessor_model (llmConfig cfg)
     = ChatGoogleGenerativeAI (lit "gemini-2.5-flash")
         (nullish (Env.GEMINI_API_KEY env) (lit "placeholder")) (num 0.01).
Proof.
  destruct (config_loaded_fields env cfg Hloaded) as (_ & Hprovider & Hkey).
  split; [exact Hprovider|].
  unfold ReceiptProcessor_model, llmConfig. cbn [LLMConfig.provider LLMConfig.geminiApiKey].
  rewrite Hprovider.
  replace (string_eqb (lit "google") (lit "google")) with true by reflexivity.
  unfold f_geminiApiKey, string_required in Hkey.
  destruct (Zod.string_min 1 (nullish (Env.GEMINI_API_KEY env) (lit "placeholder")));
    [|discriminate].
  injection Hkey as <-. reflexivity.
Qed.

(** X13.  On a configuration that loads, exactly one of [isDevelopment],
    [isProduction] and [isTest] holds, and it is [isDevelopment] when
    [NODE_ENV] is not set. *)
Theorem environment_helpers_exclusive (env : Env.t) (cfg : Config.t)
  (Hloaded : config Number env = Loaded cfg) :
  In (isDevelopment cfg, isProduction cfg, isTest cfg)
    [(true, false, false); (false, true, false); (false, false, true)]
  /\ (Env.NODE_ENV env = None -> isDevelopment cfg = true).
Proof.
  destruct (config_loaded_fields env cfg Hloaded) as (Hnode & _ & _).
  unfold f_nodeEnv, enum_default in Hnode.
  unfold isDevelopment, isProduction, isTest.
  destruct (Env.NODE_ENV env) as [s|].
  - split; [|discriminate].
    destruct (array_includes node_envs s) eqn:E; [|discriminate].
    injection Hnode as <-. apply array_includes_In in E.
    unfold node_envs in E. simpl in E.
    destruct E as [<-|[<-|[<-|[]]]]; vm_compute; tauto.
  - injection Hnode as <-. split; [|reflexivity]. left. reflexivity.
Qed.

Lemma config_loaded_image_fields (env : Env.t) (cfg : Config.t) :
  config Number env = Loaded cfg ->
  f_maxFileSize Number env = Some (Config.maxFileSize cfg)
  /\ f_allowedImageTypes env = Some (Config.allowedImageTypes cfg).
Proof.
  unfold config, ConfigSchema_parse.
  destruct (f_port Number env); [|discriminate].
  destruct (f_nodeEnv env); [|discriminate].
  cbn [obind f_provider enum_default].
  destruct (f_geminiApiKey env); [|discriminate].
  destruct (f_openAiApiKey env); [|discriminate].
  destruct (f_logLevel env); [|discriminate].
  destruct (f_maxFileSize Number env); [|discriminate].
  destruct (f_allowedImageTypes env); [|discriminate].
  destruct (f_corsOrigin env); [|discriminate].
  destruct (f_rateLimitWindowMs Number env); [|discriminate].
  destruct (f_rateLimitMaxRequests Number env); [|discriminate].
  destruct (f_receiptProcessingTimeout Number env); [|discriminate].
  destruct (f_receiptProcessingRetries Number env); [|discriminate].
  cbn [obind]. intros H. injection H as <-. auto.
Qed.

(** X16.  When [ALLOWED_IMAGE_TYPES] and [MAX_FILE_SIZE] are not set, the
    configuration that loads agrees with the upload middleware, which does
    not read it: [imageConfig.allowedTypes] is the list of the seven types
    the file filter accepts, in the same order, so the filter accepts a
    file exactly when its type is in [imageConfig.allowedTypes], and
    [imageConfig.maxFileSize] is the size limit given to multer. *)
Theorem default_image_configuration_matches_upload (env : Env.t) (cfg : Config.t)
  (Hloaded : config Number env = Loaded cfg)
  (Htypes : Env.ALLOWED_IMAGE_TYPES env = None)
  (Hsize : Env.MAX_FILE_SIZE env = None) :
  ImageConfig.allowedTypes (imageConfig cfg) = allowedMimeTypes
  /\ (forall file,
        fileFilter file = Normal true
        <-> In (File.mimetype file) (ImageConfig.allowedTypes (imageConfig cfg)))
  /\ ImageConfig.maxFileSize (imageConfig cfg) = upload_fileSize.
Proof.
  destruct (config_loaded_image_fields env cfg Hloaded) as (Hmax & Hallowed).
  unfold f_maxFileSize, f_allowedImageTypes, string_default, coerce_number_default
    in *.
  rewrite Hsize in Hmax. rewrite Htypes in Hallowed.
  injection Hmax as Hmax. injection Hallowed as Hallowed.
  assert (Hlist : ImageConfig.allowedTypes (imageConfig cfg) = allowedMimeTypes).
  { unfold imageConfig. cbn [ImageConfig.allowedTypes].
    rewrite <- Hallowed. vm_compute. reflexivity. }
  split; [exact Hlist|]. split.
  - intros file. rewrite Hlist. unfold fileFilter.
    rewrite <- array_includes_In.
    destruct (array_includes allowedMimeTypes (File.mimetype file));
      split; intros H; try reflexivity; discriminate.
  - unfold imageConfig. cbn [ImageConfig.maxFileSize].
    rewrite <- Hmax. reflexivity.
Qed.

(** X17.  The earlier configuration does stop on a missing key: whenever
    [GEMINI_API_KEY] is not set, or is set to the empty string, loading
    ends the process with code 1 and the path "geminiApiKey" is among the
    paths printed, whatever the other variables hold. *)
Theorem legacy_config_requires_key (env : Env.t)
  (Hkey : Env.GEMINI_API_KEY env = None \/ Env.GEMINI_API_KEY env = Some []) :
  exists paths,
    LegacyConfig.config Number env = LegacyConfig.Exited 1 paths
    /\ In (lit "geminiApiKey") paths.
Proof.
  assert (Hfield : LegacyConfig.f_geminiApiKey env = None).
  { unfold LegacyConfig.f_geminiApiKey. destruct Hkey as [-> | ->]; reflexivity. }
  exists (LegacyConfig.ConfigSchema_issues Number env). split.
  - unfold LegacyConfig.config, LegacyConfig.ConfigSchema_parse.
    rewrite Hfield.
    destruct (f_port Number env); [|reflexivity].
    destruct (f_nodeEnv env); reflexivity.
  - unfold LegacyConfig.ConfigSchema_issues. rewrite Hfield.
    apply in_or_app. right. apply in_or_app. right.
    apply in_or_app. left. left. reflexivity.
Qed.

End ConfigFacts.

(* ===================================================================== *)
(** * The accepted path and the warnings *)
(* ===================================================================== *)

Section AcceptedPath.

Variable model_invoke : list Byte.byte -> completion jsstring.
Variable parser_json : jsstring -> option ReceiptAnalysisResult.t.
Variable parser_exception : jsstring -> thrown.

(** X14.  When the model answers, the parser delivers a result and the
    validator accepts it, [processReceiptImage] returns that very result,
    unchanged, and the console receives the two timer entries followed by
    the warnings of the validator, if any. *)
Theorem accepted_result_returned (imageBuffer : list Byte.byte)
  (text : jsstring) (r : ReceiptAnalysisResult.t)
  (Hresp : model_invoke imageBuffer = Normal text)
  (Hparse : parser_parse parser_json parser_exception text = Normal r)
  (Hacc : accepts r = true) :
  forall c,
    processReceiptImage model_invoke parser_json parser_exception imageBuffer c
    = (Normal r, c ++ [time llm_timer; timeEnd llm_timer] ++ diagnostics r).
Proof.
  intros c. apply accepts_verdict in Hacc.
  unfold processReceiptImage, try_catch, bind, lift, console_log, ret.
  rewrite Hresp, Hparse, validateBusinessLogic_closed_form, Hacc.
  rewrite diagnostics_notes, <- !app_assoc. reflexivity.
Qed.

(** X15.  One call of the validator writes at most one warning: the
    warning about the total when there are items, the warning about an
    empty result when there are none, never both.  The warning about the
    total is written before any check that throws, so it can precede a
    rejection; the warning about an empty result is written only after the
    currency check has passed. *)
Theorem validator_writes_at_most_one_warning (r : ReceiptAnalysisResult.t)
  (c : console) :
  snd (validateBusinessLogic r c) = c ++ diagnostics r
  /\ (diagnostics r = []
      \/ (diagnostics r = [warn_total_mismatch (calculatedTotal r) (totalPrice r)]
          /\ items r <> [] /\ truthy_opt (errorText r) = false)
      \/ (diagnostics r = [no_items_warning]
          /\ items r = [] /\ truthy_opt (errorText r) = false
          /\ bad_currency r = false))
  /\ (truthy_opt (errorText r) = false -> items r <> [] -> mismatch r = true ->
      snd (validateBusinessLogic r c)
      = c ++ [warn_total_mismatch (calculatedTotal r) (totalPrice r)]).
Proof.
  split; [|split].
  3:{ intros Herr Hitems Hmis. rewrite validateBusinessLogic_closed_form.
      simpl. now rewrite (notes_with_items r Herr Hitems), Hmis. }
  1:{ rewrite validateBusinessLogic_closed_form, diagnostics_notes.
      reflexivity. }
  rewrite diagnostics_notes.
  unfold notes, error_with_items.
  destruct (truthy_opt (errorText r)), (bad_currency r), (items r) as [|i l];
    simpl; try (now left).
  all: try (right; right; repeat split; reflexivity).
  all: rewrite !app_nil_r; destruct (mismatch r); [|now left].
  all: right; left; split; [reflexivity|]; split; [discriminate | reflexivity].
Qed.

End AcceptedPath.

(* ===================================================================== *)
(** * The further statements at concrete inputs *)
(* ===================================================================== *)

Section FurtherInstances.

(** With nothing set, the configuration loads with its defaults. *)
Example empty_environment_loads :
  exists cfg,
    config no_number empty_env = Loaded cfg
    /\ Config.port cfg = num 3000
    /\ Config.maxFileSize cfg = num 5242880
    /\ Config.geminiApiKey cfg = lit "placeholder"
    /\ Config.nodeEnv cfg = lit "development".
Proof. eexists. repeat split. Qed.

(** A port that is not a number ends the process and prints its path. *)
Example bad_port_exits :
  config no_number
    {| Env.PORT := Some (lit "http"); Env.NODE_ENV := None;
       Env.GEMINI_API_KEY := None; Env.OPEN_AI_API_KEY := None;
       Env.LOG_LEVEL := None; Env.MAX_FILE_SIZE := None;
       Env.ALLOWED_IMAGE_TYPES := None; Env.CORS_ORIGIN := None;
       Env.RATE_LIMIT_WINDOW_MS := None; Env.RATE_LIMIT_MAX_REQUESTS := None;
       Env.RECEIPT_PROCESSING_TIMEOUT := None;
       Env.RECEIPT_PROCESSING_RETRIES := None |}
  = Exited 1 [lit "port"].
Proof. vm_compute. reflexivity. Qed.

Lemma returned_result_is_admitted_at_garbage :
  fst (processReceiptImage garbage_model no_json parse_exception [] [])
  = Normal (safe_default "parsing error")
  /\ length (currency (safe_default "parsing error")) = 3.
Proof.
  assert (H : fst (processReceiptImage garbage_model no_json parse_exception [] [])
              = Normal (safe_default "parsing error")) by (vm_compute; reflexivity).
  split; [exact H|].
  apply (returned_result_is_admitted garbage_model no_json parse_exception
           [] [] _ H).
Defined.

Lemma validator_after_schema_at_blank_fee :
  ReceiptAnalysisResultSchema blank_fee_receipt = true
  /\ fst (validateBusinessLogic blank_fee_receipt [])
     <> Throw (negative_amount_error (mk_cost "   " (num 1) false)).
Proof.
  assert (H : ReceiptAnalysisResultSchema blank_fee_receipt = true)
    by (vm_compute; reflexivity).
  split; [exact H|].
  apply (validator_after_schema blank_fee_receipt H).
Defined.

Lemma legacy_rejection_reaches_caller_at_blurry :
  Legacy.accepts blurry_receipt = false
  /\ fst (Legacy.processReceiptImage blurry_structured [] [])
     = Throw (JsError (lit "Failed to process receipt: Images with errors should have empty items array")).
Proof.
  assert (H : Legacy.accepts blurry_receipt = false) by (vm_compute; reflexivity).
  split; [exact H|].
  apply (legacy_rejection_reaches_caller blurry_structured [] blurry_receipt
           eq_refl H []).
  reflexivity.
Defined.

Lemma post_receipt_processed_at_garbage :
  fst (post_receipt identity_sharp garbage_model no_json parse_exception
         (Normal (Some png_upload)) [])
  = Normal (succeeded (safe_default "parsing error")).
Proof.
  apply (post_receipt_processed identity_sharp garbage_model no_json
           parse_exception png_upload [] eq_refl []).
Defined.

Lemma missing_file_answered_at_no_upload :
  fst (post_receipt identity_sharp garbage_model no_json parse_exception
         (Normal None) [])
  = Normal (failure 400 (lit "MISSING_FILE") (lit "No image file provided"))
  /\ lit "No image file provided" <> missing_file_message.
Proof.
  assert (H : fst (post_receipt identity_sharp garbage_model no_json
                     parse_exception (Normal None) [])
              = Normal (failure 400 (lit "MISSING_FILE")
                          (lit "No image file provided")))
    by (vm_compute; reflexivity).
  split; [exact H|].
  apply (missing_file_answered_by_processImage identity_sharp garbage_model
           no_json parse_exception (Normal None) [] _ _ H eq_refl).
Defined.

Lemma provider_is_always_google_at_empty :
  exists cfg,
    config no_number empty_env = Loaded cfg
    /\ Config.provider cfg = lit "google".
Proof.
  destruct (config no_number empty_env) as [cfg|code paths] eqn:H;
    [|vm_compute in H; discriminate].
  exists cfg. split; [reflexivity|].
  apply (provider_is_always_google no_number empty_env cfg H).
Defined.

Lemma environment_helpers_exclusive_at_production :
  exists cfg,
    config no_number (env_with_node_env "production") = Loaded cfg
    /\ In (isDevelopment cfg, isProduction cfg, isTest cfg)
         [(true, false, false); (false, true, false); (false, false, true)].
Proof.
  destruct (config no_number (env_with_node_env "production"))
    as [cfg|code paths] eqn:H; [|vm_compute in H; discriminate].
  exists cfg. split; [reflexivity|].
  apply (environment_helpers_exclusive no_number _ cfg H).
Defined.

Lemma default_image_configuration_at_empty :
  exists cfg,
    config no_number empty_env = Loaded cfg
    /\ ImageConfig.allowedTypes (imageConfig cfg) = allowedMimeTypes.
Proof.
  destruct (config no_number empty_env) as [cfg|code paths] eqn:H;
    [|vm_compute in H; discriminate].
  exists cfg. split; [reflexivity|].
  apply (default_image_configuration_matches_upload no_number empty_env cfg H
           eq_refl eq_refl).
Defined.

Lemma legacy_config_requires_key_at_empty :
  exists paths,
    LegacyConfig.config no_number empty_env = LegacyConfig.Exited 1 paths
    /\ In (lit "geminiApiKey") paths.
Proof.
  apply (legacy_config_requires_key no_number empty_env).
  left. reflexivity.
Defined.

(** [split] keeps the empty pieces, and the empty string gives one empty
    piece. *)
Example split_on_comma :
  split_on 44 (lit "a,,b") = [lit "a"; lit ""; lit "b"]
  /\ split_on 44 (lit "") = [lit ""].
Proof. split; reflexivity. Qed.

(** The warning about the total can precede a rejection: with items, a
    total that does not match and the currency "US", the warning is
    written and then the currency error is thrown. *)
Example mismatch_warning_precedes_rejection :
  validateBusinessLogic (receipt two_items None (num 20) "US" None) []
  = (Throw (currency_error (receipt two_items None (num 20) "US" None)),
     [warn_total_mismatch
        (calculatedTotal (receipt two_items None (num 20) "US" None)) (num 20)]).
Proof. vm_compute. reflexivity. Qed.

Lemma accepted_result_returned_at_ten_plus_one :
  processReceiptImage garbage_model (fun _ => Some ten_plus_one_receipt)
    parse_exception [] []
  = (Normal ten_plus_one_receipt, [time llm_timer; timeEnd llm_timer]).
Proof.
  apply (accepted_result_returned garbage_model
           (fun _ => Some ten_plus_one_receipt) parse_exception []
           (lit "not valid json{{") ten_plus_one_receipt eq_refl eq_refl eq_refl []).
Defined.

End FurtherInstances.

(* ===================================================================== *)
(** * What the validator leaves in the object, and acceptance after the schema *)
(* ===================================================================== *)

Section StoreFacts.

Lemma store_reduce_pure {A B : Type} (f : B -> A -> B) (l : list A) (init : B)
  (s : Store.state) :
  Store.reduce (fun acc x => Store.ret (f acc x)) l init s
  = (Normal (fold_left f l init), s).
Proof.
  revert init. induction l as [|x l IH]; intros init; simpl; [reflexivity|].
  unfold Store.bind, Store.ret at 1. apply IH.
Qed.

Lemma store_filter_pure {A : Type} (p : A -> bool) (l : list A) (s : Store.state) :
  Store.filter (fun x => Store.ret (p x)) l s = (Normal (List.filter p l), s).
Proof.
  induction l as [|x l IH]; simpl; [reflexivity|].
  unfold Store.bind, Store.ret at 1. rewrite IH.
  unfold Store.ret. destruct (p x); reflexivity.
Qed.

Lemma store_for_of_check (costs : list AdditionalCost.t) (s : Store.state) :
  Store.for_of costs Store.check_additional_cost s = (first_cost_error costs, s).
Proof.
  induction costs as [|cost rest IH]; simpl; [reflexivity|].
  unfold Store.bind, Store.check_additional_cost at 1, Store.bind, Store.when,
    Store.throw, Store.ret.
  destruct (AdditionalCost.amount cost < num 0)%js; [reflexivity|].
  destruct (negb (truthy (AdditionalCost.name cost))
            || (length (trim (AdditionalCost.name cost)) =? 0)); [reflexivity|].
  exact IH.
Qed.

(** The arithmetic block, run on the object: it leaves the object as it
    is and writes the warning when the totals differ. *)
Lemma store_arithmetic_block (r : ReceiptAnalysisResult.t) (c : console) :
  Store.bind (Store.get items) (fun its =>
  Store.bind
    (Store.reduce
       (fun sum item =>
          Store.ret (sum + ReceiptItem.price item * ReceiptItem.quantity item)%js)
       its (num 0)) (fun total =>
  Store.bind (Store.get additionalCosts) (fun costs =>
  Store.bind
    (Store.filter (fun cost => Store.ret (AdditionalCost.additionalCost cost))
       (or_empty costs)) (fun included =>
  Store.bind
    (Store.reduce (fun sum cost => Store.ret (sum + AdditionalCost.amount cost)%js)
       included (num 0)) (fun extra =>
  Store.bind (Store.get totalPrice) (fun price =>
  Store.when (abs (total + extra - price) > tolerance)%js
    (Store.bind (Store.get totalPrice) (fun price' =>
     Store.console_log (warn_total_mismatch (total + extra)%js price')))))))))
    (Store.Build_state r c)
  = (Normal tt,
     Store.Build_state r
       (c ++ if mismatch r
             then [warn_total_mismatch (calculatedTotal r) (totalPrice r)]
             else [])).
Proof.
  unfold Store.bind at 1, Store.get at 1. cbn [Store.object].
  unfold Store.bind at 1. rewrite store_reduce_pure.
  unfold Store.bind at 1, Store.get at 1. cbn [Store.object].
  unfold Store.bind at 1. rewrite store_filter_pure.
  unfold Store.bind at 1. rewrite store_reduce_pure.
  unfold Store.bind at 1, Store.get at 1. cbn [Store.object].
  unfold mismatch, calculatedTotal, itemsTotal, includedAdditionalCosts, Store.when.
  destruct (abs _ > tolerance)%js.
  - reflexivity.
  - unfold Store.ret. now rewrite app_nil_r.
Qed.

(** One call of the validator on the object: it completes as [verdict]
    says, writes [notes], and leaves the object as it found it. *)
Lemma store_validate_run (r : ReceiptAnalysisResult.t) (c : console) :
  Store.validateBusinessLogic (Store.Build_state r c)
  = (verdict r, Store.Build_state r (c ++ notes r)).
Proof.
  unfold Store.validateBusinessLogic.
  unfold Store.bind at 1, Store.get at 1. cbn [Store.object].
  unfold Store.bind at 1, Store.get at 1. cbn [Store.object].
  unfold Store.bind at 1.
  assert (Hfirst :
            Store.when (negb (truthy_opt (errorText r)) && (0 <? length (items r)))
              (Store.bind (Store.get items) (fun its =>
               Store.bind
                 (Store.reduce
                    (fun sum item =>
                       Store.ret
                         (sum + ReceiptItem.price item * ReceiptItem.quantity item)%js)
                    its (num 0)) (fun total =>
               Store.bind (Store.get additionalCosts) (fun costs =>
               Store.bind
                 (Store.filter
                    (fun cost => Store.ret (AdditionalCost.additionalCost cost))
                    (or_empty costs)) (fun included =>
               Store.bind
                 (Store.reduce
                    (fun sum cost => Store.ret (sum + AdditionalCost.amount cost)%js)
                    included (num 0)) (fun extra =>
               Store.bind (Store.get totalPrice) (fun price =>
               Store.when (abs (total + extra - price) > tolerance)%js
                 (Store.bind (Store.get totalPrice) (fun price' =>
                  Store.console_log
                    (warn_total_mismatch (total + extra)%js price'))))))))))
              (Store.Build_state r c)
            = (Normal tt,
               Store.Build_state r
                 (c ++ (if negb (truthy_opt (errorText r))
                           && (0 <? length (items r)) && mismatch r
                        then [warn_total_mismatch (calculatedTotal r) (totalPrice r)]
                        else [])))).
  { unfold Store.when at 1.
    destruct (negb (truthy_opt (errorText r)) && (0 <? length (items r))).
    - apply store_arithmetic_block.
    - unfold Store.ret. now rewrite app_nil_r. }
  rewrite Hfirst. clear Hfirst.
  unfold verdict, notes, bad_currency, error_with_items, Store.bind, Store.get,
    Store.when, Store.throw, Store.ret, Store.console_log.
  cbn [Store.object Store.out].
  destruct (truthy (currency r) && negb (length (currency r) =? 3));
    cbv beta iota zeta; cbn [Store.object Store.out negb andb];
    [rewrite ?app_nil_r; reflexivity|].
  destruct (truthy_opt (errorText r) && (0 <? length (items r)));
    cbv beta iota zeta; cbn [Store.object Store.out negb andb];
    [rewrite ?app_nil_r; reflexivity|].
  destruct (negb (truthy_opt (errorText r)) && (length (items r) =? 0));
    cbv beta iota zeta; cbn [Store.object Store.out negb andb];
    (destruct (additionalCosts r) as [costs|];
     [rewrite store_for_of_check | idtac]);
    cbn [or_empty first_cost_error];
    rewrite <- ?app_assoc, ?app_nil_r; reflexivity.
Qed.

(** The two embeddings of the validator agree on completion and console. *)
Lemma store_validate_agrees (r : ReceiptAnalysisResult.t) (c : console) :
  fst (Store.validateBusinessLogic (Store.Build_state r c))
  = fst (validateBusinessLogic r c)
  /\ Store.out (snd (Store.validateBusinessLogic (Store.Build_state r c)))
     = snd (validateBusinessLogic r c).
Proof.
  rewrite store_validate_run, validateBusinessLogic_closed_form. split; reflexivity.
Qed.

(** C8.  The validator, run on the object it is given, leaves that object
    identical: no property of the result is assigned.  So once a result
    has been accepted, validating the object the first call left, from
    whatever console, accepts again, leaves the object identical again and
    writes the same warnings again; the completion is the one of
    [validateBusinessLogic] on the value. *)
Theorem validation_leaves_result_identical (r : ReceiptAnalysisResult.t)
  (c : console)
  (Hacc : fst (Store.validateBusinessLogic (Store.Build_state r c)) = Normal tt) :
  Store.object (snd (Store.validateBusinessLogic (Store.Build_state r c))) = r
  /\ fst (validateBusinessLogic r c) = Normal tt
  /\ forall c',
       Store.validateBusinessLogic
         (Store.Build_state
            (Store.object (snd (Store.validateBusinessLogic (Store.Build_state r c))))
            c')
       = (Normal tt, Store.Build_state r (c' ++ diagnostics r)).
Proof.
  rewrite store_validate_run in *. cbn [fst snd Store.object] in *.
  split; [reflexivity|]. split.
  - rewrite validateBusinessLogic_closed_form. exact Hacc.
  - intros c'. rewrite store_validate_run, diagnostics_notes, Hacc. reflexivity.
Qed.

(** The object is left identical on a rejection as well. *)
Lemma rejected_result_left_identical (r : ReceiptAnalysisResult.t) (c : console) :
  Store.object (snd (Store.validateBusinessLogic (Store.Build_state r c))) = r.
Proof. rewrite store_validate_run. reflexivity. Qed.

(** An assignment is visible in the state: the statement above is not one
    that every computation satisfies. *)
Example assignment_changes_object :
  Store.object
    (snd (Store.assign (fun r => with_errorText r None)
            (Store.Build_state blurry_receipt [])))
  <> blurry_receipt.
Proof. simpl. intros H. discriminate H. Qed.

Lemma validation_leaves_result_identical_at_taxed :
  fst (Store.validateBusinessLogic (Store.Build_state taxed_receipt [])) = Normal tt
  /\ Store.object
       (snd (Store.validateBusinessLogic (Store.Build_state taxed_receipt [])))
     = taxed_receipt.
Proof.
  assert (H : fst (Store.validateBusinessLogic (Store.Build_state taxed_receipt []))
              = Normal tt) by (vm_compute; reflexivity).
  split; [exact H|].
  apply (validation_leaves_result_identical taxed_receipt [] H).
Defined.

End StoreFacts.

Section AcceptanceAfterSchema.

(** C1.  On every result the validator can be given, that is one that has
    passed the schema of the parser, the validator returns without
    throwing exactly when rules 1 to 3 hold: the currency, when non-empty,
    has length 3; a non-empty [errorText] comes with no items; every
    additional cost has [amount >= 0] and a name that is non-empty after
    trimming.  Nothing else decides: neither the total nor the presence of
    items appears in the three rules, so a mismatch of the total (rule 4)
    or an empty result (rule 5) never blocks acceptance. *)
Theorem accepted_satisfies_rules (r : ReceiptAnalysisResult.t)
  (Hschema : ReceiptAnalysisResultSchema r = true) :
  accepts r = true <-> rule_currency r /\ rule_exclusive r /\ rule_costs r.
Proof.
  split.
  - intros Hacc. apply admitted_satisfies_rules.
    unfold admitted. now rewrite Hschema, Hacc.
  - intros (Hcur & Hex & Hcosts).
    apply accepts_checks.
    split; [now apply bad_currency_false|].
    split; [now apply error_with_items_false|].
    apply first_cost_error_ok. intros cost Hin.
    destruct (Hcosts cost Hin) as [Hge Hname].
    split; [now right | exact Hname].
Qed.

Lemma accepted_satisfies_rules_at_examples :
  (ReceiptAnalysisResultSchema taxed_receipt = true
   /\ accepts taxed_receipt = true
   /\ mismatch taxed_receipt = true
   /\ rule_costs taxed_receipt)
  /\ (ReceiptAnalysisResultSchema not_a_receipt = true
      /\ accepts not_a_receipt = true
      /\ rule_exclusive not_a_receipt)
  /\ (ReceiptAnalysisResultSchema empty_receipt = true
      /\ diagnostics empty_receipt = [no_items_warning]
      /\ accepts empty_receipt = true).
Proof.
  assert (Htaxed : ReceiptAnalysisResultSchema taxed_receipt = true)
    by (vm_compute; reflexivity).
  assert (Hnot : ReceiptAnalysisResultSchema not_a_receipt = true)
    by (vm_compute; reflexivity).
  assert (Hempty : ReceiptAnalysisResultSchema empty_receipt = true)
    by (vm_compute; reflexivity).
  assert (Hacc1 : accepts taxed_receipt = true) by (vm_compute; reflexivity).
  assert (Hacc2 : accepts not_a_receipt = true) by (vm_compute; reflexivity).
  split; [|split].
  - split; [exact Htaxed|]. split; [exact Hacc1|].
    split; [vm_compute; reflexivity|].
    apply (proj1 (accepted_satisfies_rules taxed_receipt Htaxed) Hacc1).
  - split; [exact Hnot|]. split; [exact Hacc2|].
    apply (proj1 (accepted_satisfies_rules not_a_receipt Hnot) Hacc2).
  - split; [exact Hempty|]. split; [vm_compute; reflexivity|].
    apply (proj2 (accepted_satisfies_rules empty_receipt Hempty)).
    split; [intros _; reflexivity|].
    split; [intros (t & Ht & _); discriminate Ht|].
    intros cost [].
Defined.

End AcceptanceAfterSchema.
